(** * two_button_blink: the polling LED driver, embedded and verified

    The module drives one LED (GPIO18) at [blink_freq] blinks per second and
    polls two push-buttons (GPIO23 increments, GPIO24 decrements the
    frequency on a short press).  The embedding follows
    [two_button_blink.c] block by block: the module's static variables
    become a record, the memory-mapped register accesses and the kernel
    calls with an observable effect become events appended to a log, and
    what the kernel hands back (register contents, [jiffies], the result of
    [ioremap] and [kthread_run]) is an explicit argument. *)

From Stdlib Require Import ZArith List Bool Lia String.
Import ListNotations.
Local Open Scope Z_scope.

(** ** C integers *)

(** [int] is 32 bits wide.  The kernel is built with [-fno-strict-overflow],
    so signed arithmetic wraps in two's complement. *)
Module CInt.

Definition INT_MAX : Z := 2147483647.
Definition INT_MIN : Z := -2147483648.

Definition wrap (z : Z) : Z := (z + 2 ^ 31) mod 2 ^ 32 - 2 ^ 31.

Definition in_range (z : Z) : Prop := INT_MIN <= z <= INT_MAX.

End CInt.

(** ** Kernel configuration

    [HZ] (timer ticks per second) and the width of [unsigned long] come
    from the kernel the module is built against, not from this file. *)
Class KernelConfig : Type := {
  HZ : Z;
  BITS_PER_LONG : Z
}.

(** A Raspberry Pi 2/3 running the 32-bit kernel at 100 ticks per second. *)
Definition rpi_armv7 : KernelConfig := {| HZ := 100; BITS_PER_LONG := 32 |}.

(** The same board with a 64-bit kernel at 250 ticks per second. *)
Definition rpi_arm64 : KernelConfig := {| HZ := 250; BITS_PER_LONG := 64 |}.

(** Arithmetic on [unsigned long] is modulo [2 ^ BITS_PER_LONG]. *)
Definition wrap_ulong `{cfg : KernelConfig} (z : Z) : Z := z mod 2 ^ BITS_PER_LONG.

(** ** Register map and pins *)

Definition GPIO_BASE : Z := 0x3F200000.
Definition GPIO_LEN : Z := 0xB4.

Definition GPFSEL0_OFFSET : Z := 0x00.
Definition GPFSEL1_OFFSET : Z := 0x04.
Definition GPFSEL2_OFFSET : Z := 0x08.
Definition GPSET0_OFFSET : Z := 0x1C.
Definition GPCLR0_OFFSET : Z := 0x28.
Definition GPLEV0_OFFSET : Z := 0x34.
Definition GPPUD_OFFSET : Z := 0x94.
Definition GPPUDCLK0_OFFSET : Z := 0x98.

Definition GPIO_LED : Z := 18.
Definition GPIO_BTN_INC : Z := 23.
Definition GPIO_BTN_DEC : Z := 24.

Definition GPIO_FSEL_SHIFT (pin : Z) : Z := Z.rem pin 10 * 3.

(** [~x] on a 32-bit [unsigned int]. *)
Definition not32 (x : Z) : Z := Z.lxor x 0xFFFFFFFF.

(** ** Observable effects

    The messages of [pr_info] and [pr_err] are kept without their final
    newline; [arg] is the value printed for [%d]. *)

Inductive event : Type :=
| Ioremap (phys len result : Z)
| Iounmap (addr : Z)
| Iowrite32 (val addr : Z)
| Ndelay (ns : Z)
| Msleep (msecs : Z)
| KthreadRun (result : Z)
| PrInfo (fmt : string) (arg : option Z)
| PrErr (fmt : string).

(** ** The module's static variables

    [log] is not a variable of the program: it records the effects issued
    so far, newest first. *)
Record state : Type := mkState {
  gpio_base : Z;
  poll_thread : Z;
  running : bool;
  blink_freq : Z;
  last_inc_state : Z;
  last_dec_state : Z;
  inc_press_jiffies : Z;
  dec_press_jiffies : Z;
  log : list event
}.

(** The values the static initialisers give, before the module is loaded. *)
Definition initial_state : state :=
  {| gpio_base := 0;
     poll_thread := 0;
     running := true;
     blink_freq := 2;
     last_inc_state := 1;
     last_dec_state := 1;
     inc_press_jiffies := 0;
     dec_press_jiffies := 0;
     log := [] |}.

Definition set_gpio_base (v : Z) (s : state) : state :=
  mkState v (poll_thread s) (running s) (blink_freq s) (last_inc_state s)
          (last_dec_state s) (inc_press_jiffies s) (dec_press_jiffies s) (log s).

Definition set_poll_thread (v : Z) (s : state) : state :=
  mkState (gpio_base s) v (running s) (blink_freq s) (last_inc_state s)
          (last_dec_state s) (inc_press_jiffies s) (dec_press_jiffies s) (log s).

Definition set_running (v : bool) (s : state) : state :=
  mkState (gpio_base s) (poll_thread s) v (blink_freq s) (last_inc_state s)
          (last_dec_state s) (inc_press_jiffies s) (dec_press_jiffies s) (log s).

Definition set_blink_freq (v : Z) (s : state) : state :=
  mkState (gpio_base s) (poll_thread s) (running s) v (last_inc_state s)
          (last_dec_state s) (inc_press_jiffies s) (dec_press_jiffies s) (log s).

Definition set_last_inc_state (v : Z) (s : state) : state :=
  mkState (gpio_base s) (poll_thread s) (running s) (blink_freq s) v
          (last_dec_state s) (inc_press_jiffies s) (dec_press_jiffies s) (log s).

Definition set_last_dec_state (v : Z) (s : state) : state :=
  mkState (gpio_base s) (poll_thread s) (running s) (blink_freq s)
          (last_inc_state s) v (inc_press_jiffies s) (dec_press_jiffies s) (log s).

Definition set_inc_press_jiffies (v : Z) (s : state) : state :=
  mkState (gpio_base s) (poll_thread s) (running s) (blink_freq s)
          (last_inc_state s) (last_dec_state s) v (dec_press_jiffies s) (log s).

Definition set_dec_press_jiffies (v : Z) (s : state) : state :=
  mkState (gpio_base s) (poll_thread s) (running s) (blink_freq s)
          (last_inc_state s) (last_dec_state s) (inc_press_jiffies s) v (log s).

Definition emit (e : event) (s : state) : state :=
  mkState (gpio_base s) (poll_thread s) (running s) (blink_freq s)
          (last_inc_state s) (last_dec_state s) (inc_press_jiffies s)
          (dec_press_jiffies s) (e :: log s).

(** ** GPIO helpers *)

Definition gpio_set_pin (pin : Z) (s : state) : state :=
  emit (Iowrite32 (Z.shiftl 1 pin) (gpio_base s + GPSET0_OFFSET)) s.

Definition gpio_clear_pin (pin : Z) (s : state) : state :=
  emit (Iowrite32 (Z.shiftl 1 pin) (gpio_base s + GPCLR0_OFFSET)) s.

(** [val] is what [ioread32 (gpio_base + GPLEV0_OFFSET)] returned. *)
Definition gpio_read_pin (pin : Z) (val : Z) : Z :=
  if Z.land val (Z.shiftl 1 pin) =? 0 then 0 else 1.

(** ** The polling loop *)

Section PollThread.
Context `{cfg : KernelConfig}.

(** Block 1 of the loop body, after the pin was read: [curr_inc] is the
    level read and [now] the value [jiffies] has when the block reads it. *)
Definition check_increment (curr_inc now : Z) (s : state) : state :=
  if negb (curr_inc =? last_inc_state s) then
    let s1 :=
      if curr_inc =? 0 then
        set_inc_press_jiffies now s
      else
        let diff := wrap_ulong (now - inc_press_jiffies s) in
        if diff <? HZ then
          let s2 := set_blink_freq (CInt.wrap (blink_freq s + 5)) s in
          emit (PrInfo "Increment button pressed: freq => %d"
                       (Some (blink_freq s2))) s2
        else s
    in
    set_last_inc_state curr_inc s1
  else s.

(** Block 2 of the loop body. *)
Definition check_decrement (curr_dec now : Z) (s : state) : state :=
  if negb (curr_dec =? last_dec_state s) then
    let s1 :=
      if curr_dec =? 0 then
        set_dec_press_jiffies now s
      else
        let diff := wrap_ulong (now - dec_press_jiffies s) in
        if diff <? HZ then
          let s2 := set_blink_freq (CInt.wrap (blink_freq s - 5)) s in
          let s3 := if blink_freq s2 <? 1 then set_blink_freq 1 s2 else s2 in
          emit (PrInfo "Decrement button pressed: freq => %d"
                       (Some (blink_freq s3))) s3
        else s
    in
    set_last_dec_state curr_dec s1
  else s.

(** What one pass of the loop body takes from its environment: the two
    reads of the level register and the value of [jiffies] in each
    block. *)
Record sample : Type := mkSample {
  lev_inc : Z;
  now_inc : Z;
  lev_dec : Z;
  now_dec : Z
}.

(** Block 3: toggle the LED.  [led_on] is the thread's local variable. *)
Definition blink_led (led_on : bool) (s : state) : bool * state :=
  if led_on then (false, gpio_clear_pin GPIO_LED s)
  else (true, gpio_set_pin GPIO_LED s).

(** The argument of [msleep]: C division truncates. *)
Definition half_period (freq : Z) : Z := Z.quot (Z.quot 1000 freq) 2.

(** The tail of the body: the defensive clamp, then the sleep. *)
Definition sleep_half_cycle (s : state) : state :=
  let s1 := if blink_freq s <? 1 then set_blink_freq 1 s else s in
  emit (Msleep (half_period (blink_freq s1))) s1.

(** One pass of the body of the [while] loop of [poll_thread_fn]. *)
Definition loop_body (smp : sample) (t : bool * state) : bool * state :=
  let (led_on, s) := t in
  let s1 := check_increment (gpio_read_pin GPIO_BTN_INC (lev_inc smp))
                            (now_inc smp) s in
  let s2 := check_decrement (gpio_read_pin GPIO_BTN_DEC (lev_dec smp))
                            (now_dec smp) s1 in
  let (led_on', s3) := blink_led led_on s2 in
  (led_on', sleep_half_cycle s3).

(** The loop condition; [should_stop] is what [kthread_should_stop ()]
    returns. *)
Definition loop_cond (should_stop : bool) (s : state) : bool :=
  negb should_stop && running s.

(** The passes of the body that the samples [smps] feed, in order. *)
Definition iterations (smps : list sample) (t : bool * state) : bool * state :=
  fold_left (fun t smp => loop_body smp t) smps t.

End PollThread.


(** ** Loading the module *)

(** Error pointers, as [linux/err.h] encodes them: the last [MAX_ERRNO]
    addresses stand for the negated error numbers. *)
Definition MAX_ERRNO : Z := 4095.
Definition ENOMEM : Z := 12.

Definition IS_ERR `{cfg : KernelConfig} (ptr : Z) : bool :=
  wrap_ulong (- MAX_ERRNO) <=? ptr.

(** The pointer read as a [long], then returned through an [int]. *)
Definition PTR_ERR `{cfg : KernelConfig} (ptr : Z) : Z :=
  CInt.wrap (if ptr <? 2 ^ (BITS_PER_LONG - 1) then ptr
             else ptr - 2 ^ BITS_PER_LONG).

(** What the kernel answers during [two_button_init]. *)
Record init_env : Type := mkInitEnv {
  ioremap_result : Z;
  gpfsel1_read : Z;
  gpfsel2_read : Z;
  kthread_run_result : Z
}.

Section ModuleInit.
Context `{cfg : KernelConfig}.

(** Step 2 of [two_button_init]: GPIO18 becomes an output. *)
Definition configure_led (env : init_env) (s : state) : state :=
  let gpfsel1 := gpio_base s + GPFSEL1_OFFSET in
  let val := gpfsel1_read env in
  let val := Z.land val (not32 (Z.shiftl 0x7 (GPIO_FSEL_SHIFT GPIO_LED))) in
  let val := Z.lor val (Z.shiftl 0x1 (GPIO_FSEL_SHIFT GPIO_LED)) in
  emit (Iowrite32 val gpfsel1) s.

(** Step 3: GPIO23 and GPIO24 become inputs with pull-ups. *)
Definition configure_buttons (env : init_env) (s : state) : state :=
  let gpfsel2 := gpio_base s + GPFSEL2_OFFSET in
  let val := gpfsel2_read env in
  let val := Z.land val (not32 (Z.shiftl 0x7 (GPIO_FSEL_SHIFT GPIO_BTN_INC))) in
  let val := Z.land val (not32 (Z.shiftl 0x7 (GPIO_FSEL_SHIFT GPIO_BTN_DEC))) in
  let s := emit (Iowrite32 val gpfsel2) s in
  let s := emit (Iowrite32 0x2 (gpio_base s + GPPUD_OFFSET)) s in
  let s := emit (Ndelay 150) s in
  let s := emit (Iowrite32 (Z.lor (Z.shiftl 1 GPIO_BTN_INC) (Z.shiftl 1 GPIO_BTN_DEC))
                           (gpio_base s + GPPUDCLK0_OFFSET)) s in
  let s := emit (Ndelay 150) s in
  let s := emit (Iowrite32 0 (gpio_base s + GPPUD_OFFSET)) s in
  emit (Iowrite32 0 (gpio_base s + GPPUDCLK0_OFFSET)) s.

(** [two_button_init]: the value returned and the state left behind. *)
Definition two_button_init (env : init_env) (s : state) : Z * state :=
  let s := emit (PrInfo "two_button_blink: loading..." None) s in
  let s := set_gpio_base (ioremap_result env) s in
  let s := emit (Ioremap GPIO_BASE GPIO_LEN (ioremap_result env)) s in
  if gpio_base s =? 0 then
    (- ENOMEM, emit (PrErr "Failed to ioremap") s)
  else
    let s := configure_led env s in
    let s := configure_buttons env s in
    let s := set_running true s in
    let s := set_poll_thread (kthread_run_result env) s in
    let s := emit (KthreadRun (kthread_run_result env)) s in
    if IS_ERR (poll_thread s) then
      let s := emit (PrErr "Failed to create poll_thread") s in
      let s := emit (Iounmap (gpio_base s)) s in
      (PTR_ERR (poll_thread s), s)
    else
      (0, emit (PrInfo "two_button_blink: loaded (freq=%d). Press buttons on GPIO23/24."
                       (Some (blink_freq s))) s).

End ModuleInit.

(** The mappings a log leaves open: every [ioremap] that returned an
    address not yet passed to [iounmap].  The log is newest first, so the
    oldest event is handled last in the recursion and first in time. *)
Fixpoint mappings_held (l : list event) : list Z :=
  match l with
  | [] => []
  | Ioremap _ _ result :: l' =>
      if result =? 0 then mappings_held l' else result :: mappings_held l'
  | Iounmap addr :: l' => remove Z.eq_dec addr (mappings_held l')
  | _ :: l' => mappings_held l'
  end.

(** Whether a log shows a worker that was started: [kthread_run] returned
    something that is not an error pointer. *)
Fixpoint worker_started `{cfg : KernelConfig} (l : list event) : bool :=
  match l with
  | [] => false
  | KthreadRun result :: l' => negb (IS_ERR result) || worker_started l'
  | _ :: l' => worker_started l'
  end.

(** ** The LED pin as the log drives it *)

(** The writes that reach the LED pin through the block mapped at [base],
    newest first: [true] for a write to the set register, [false] for one to
    the clear register. *)
Fixpoint led_writes (base : Z) (l : list event) : list bool :=
  match l with
  | [] => []
  | Iowrite32 val addr :: l' =>
      if Z.testbit val GPIO_LED then
        if addr =? base + GPSET0_OFFSET then true :: led_writes base l'
        else if addr =? base + GPCLR0_OFFSET then false :: led_writes base l'
        else led_writes base l'
      else led_writes base l'
  | _ :: l' => led_writes base l'
  end.

(** The level of the pin: the last write decides, and [before] is the level
    the pin had when the log started. *)
Definition led_level (base : Z) (before : bool) (l : list event) : bool :=
  hd before (led_writes base l).

(** ** The worker and the unloading of the module, interleaved *)

Inductive thread_pc : Type :=
| AtLoopTest
| InLoopBody
| ThreadReturned.

(** Where [two_button_exit] stands: not called, after [running = false],
    inside [kthread_stop] waiting for the worker, after [kthread_stop], and
    finished. *)
Inductive exit_pc : Type :=
| ExitNotCalled
| ExitFlagWritten
| ExitJoining
| ExitJoined
| ExitDone.

(** [passes] counts the passes of the loop body completed so far; it is
    not a variable of the program. *)
Record system : Type := mkSystem {
  vars : state;
  led_on : bool;
  thread : thread_pc;
  should_stop : bool;
  unload : exit_pc;
  passes : nat
}.

Inductive action : Type :=
| Worker (smp : sample)
| Unload.

Section Interleaving.
Context `{cfg : KernelConfig}.

(** The worker advances: it evaluates the loop condition, or runs the body
    once.  After the loop [poll_thread_fn] returns 0 and does nothing
    else. *)
Definition worker_step (smp : sample) (sys : system) : system :=
  match thread sys with
  | AtLoopTest =>
      if loop_cond (should_stop sys) (vars sys)
      then mkSystem (vars sys) (led_on sys) InLoopBody (should_stop sys)
                    (unload sys) (passes sys)
      else mkSystem (vars sys) (led_on sys) ThreadReturned (should_stop sys)
                    (unload sys) (passes sys)
  | InLoopBody =>
      let (led, s) := loop_body smp (led_on sys, vars sys) in
      mkSystem s led AtLoopTest (should_stop sys) (unload sys) (S (passes sys))
  | ThreadReturned => sys
  end.

(** The cleanup at the end of [two_button_exit], after [kthread_stop]. *)
Definition exit_cleanup (s : state) : state :=
  let s := gpio_clear_pin GPIO_LED s in
  let s := if gpio_base s =? 0 then s
           else set_gpio_base 0 (emit (Iounmap (gpio_base s)) s) in
  emit (PrInfo "two_button_blink: unloaded." None) s.

(** [two_button_exit] advances.  [kthread_stop] raises the flag that
    [kthread_should_stop] reads and returns once the worker has returned;
    until then the step leaves the system as it is. *)
Definition unload_step (sys : system) : system :=
  match unload sys with
  | ExitNotCalled =>
      mkSystem (set_running false (vars sys)) (led_on sys) (thread sys)
               (should_stop sys) ExitFlagWritten (passes sys)
  | ExitFlagWritten =>
      if poll_thread (vars sys) =? 0
      then mkSystem (vars sys) (led_on sys) (thread sys) (should_stop sys)
                    ExitJoined (passes sys)
      else mkSystem (vars sys) (led_on sys) (thread sys) true
                    ExitJoining (passes sys)
  | ExitJoining =>
      match thread sys with
      | ThreadReturned =>
          mkSystem (vars sys) (led_on sys) (thread sys) (should_stop sys)
                   ExitJoined (passes sys)
      | _ => sys
      end
  | ExitJoined =>
      mkSystem (exit_cleanup (vars sys)) (led_on sys) (thread sys)
               (should_stop sys) ExitDone (passes sys)
  | ExitDone => sys
  end.

Definition step (a : action) (sys : system) : system :=
  match a with
  | Worker smp => worker_step smp sys
  | Unload => unload_step sys
  end.

Definition run (acts : list action) (sys : system) : system :=
  fold_left (fun sys a => step a sys) acts sys.

(** The system a successful [two_button_init] leaves: the worker is about
    to test the loop condition for the first time, with its local
    [led_on = false]. *)
Definition loaded (s : state) : system :=
  mkSystem s false AtLoopTest false ExitNotCalled 0.

(** [insmod]: the module's variables get their initial values and
    [two_button_init] runs; the worker exists only if it returned 0. *)
Definition load (env : init_env) : Z * option system :=
  let (ret, s) := two_button_init env initial_state in
  (ret, if ret =? 0 then Some (loaded s) else None).

End Interleaving.

(** ** The two buttons, uniformly *)

Inductive button : Type :=
| BTN_INC
| BTN_DEC.

Section Buttons.
Context `{cfg : KernelConfig}.

(** The block of the loop body that handles button [b]. *)
Definition check (b : button) (curr now : Z) (s : state) : state :=
  match b with
  | BTN_INC => check_increment curr now s
  | BTN_DEC => check_decrement curr now s
  end.

Definition last_state (b : button) (s : state) : Z :=
  match b with
  | BTN_INC => last_inc_state s
  | BTN_DEC => last_dec_state s
  end.

Definition press_jiffies (b : button) (s : state) : Z :=
  match b with
  | BTN_INC => inc_press_jiffies s
  | BTN_DEC => dec_press_jiffies s
  end.

(** The samples [(level, jiffies)] of one button, processed in order. *)
Definition check_all (b : button) (samples : list (Z * Z)) (s : state) : state :=
  fold_left (fun s smp => check b (fst smp) (snd smp) s) samples s.

(** The ticks the release block measures for a press seen at [t_down] and
    a release seen at [t_up]. *)
Definition held (t_down t_up : Z) : Z := wrap_ulong (t_up - t_down).

(** One press of button [b]: LOW is first read at [t_down], LOW is read
    again at each time of [t_hold], and HIGH is read at [t_up]. *)
Definition press_release (b : button) (t_down : Z) (t_hold : list Z) (t_up : Z)
                         (s : state) : state :=
  check b 1 t_up (check_all b (map (fun t => (0, t)) t_hold) (check b 0 t_down s)).

(** What a short press of [b] makes of frequency [f] when the 32-bit
    arithmetic does not overflow. *)
Definition adjusted (b : button) (f : Z) : Z :=
  match b with
  | BTN_INC => f + 5
  | BTN_DEC => Z.max (f - 5) 1
  end.

(** The step of [b] applied to [f] stays within [int]. *)
Definition step_fits (b : button) (f : Z) : Prop :=
  match b with
  | BTN_INC => f + 5 <= CInt.INT_MAX
  | BTN_DEC => CInt.INT_MIN <= f - 5
  end.

(** A press as the event sequences below list it. *)
Record press : Type := mkPress {
  p_button : button;
  p_down : Z;
  p_up : Z
}.

Definition is_short (p : press) : bool := held (p_down p) (p_up p) <? HZ.

Definition apply_press (s : state) (p : press) : state :=
  press_release (p_button p) (p_down p) [] (p_up p) s.

Definition press_sequence (ps : list press) (s : state) : state :=
  fold_left apply_press ps s.

Definition is_inc (p : press) : bool :=
  match p_button p with BTN_INC => true | BTN_DEC => false end.

Definition count_inc (ps : list press) : Z :=
  Z.of_nat (List.length (filter is_inc ps)).

End Buttons.

(** ** Scenarios *)

(** A press of the increment button released within the tick it was seen. *)
Definition quick_inc : press := mkPress BTN_INC 0 0.

(** Enough quick presses of the increment button to take the frequency from
    2 to [INT_MAX = 2 + 5 * 429496729]. *)
Definition presses_to_int_max : list press :=
  repeat quick_inc (Z.to_nat 429496729).

Definition at_int_max : state :=
  press_sequence (cfg := rpi_armv7) presses_to_int_max initial_state.

(** What [kthread_run] and [ioremap] answer when all goes well, on the
    32-bit kernel. *)
Definition env_ok : init_env :=
  {| ioremap_result := 0xF3200000;
     gpfsel1_read := 0;
     gpfsel2_read := 0;
     kthread_run_result := 0xC1234000 |}.

(** The same, except that [kthread_run] fails with [-ENOMEM]. *)
Definition env_no_worker : init_env :=
  {| ioremap_result := 0xF3200000;
     gpfsel1_read := 0;
     gpfsel2_read := 0;
     kthread_run_result := 2 ^ 32 - ENOMEM |}.

(** Both buttons at rest: bits 23 and 24 of the level register are set. *)
Definition at_rest : sample :=
  {| lev_inc := 0x01800000; now_inc := 0; lev_dec := 0x01800000; now_dec := 0 |}.

(** The module as [env_ok] loads it. *)
Definition loaded_ok : system :=
  loaded (snd (two_button_init (cfg := rpi_armv7) env_ok initial_state)).

(** The worker tests the loop condition and runs the body once; the module
    is then asked to unload and writes [running = false]; the worker tests
    the condition again and returns. *)
Definition stop_after_one_pass : list action :=
  [Worker at_rest; Worker at_rest; Unload; Worker at_rest].

(** ** Bookkeeping for the interleavings *)

(** The passes of the body the worker is still committed to. *)
Definition pending_passes (sys : system) : nat :=
  match thread sys with
  | InLoopBody => 1%nat
  | _ => 0%nat
  end.

Definition is_worker (a : action) : bool :=
  match a with
  | Worker _ => true
  | Unload => false
  end.

Definition count_worker (acts : list action) : nat :=
  List.length (filter is_worker acts).

(** The steps the worker needs to return once [running] is false. *)
Definition steps_to_return (sys : system) : nat :=
  match thread sys with
  | InLoopBody => 2%nat
  | AtLoopTest => 1%nat
  | ThreadReturned => 0%nat
  end.

(** What holds of every system reached from a loaded module whose block is
    mapped at [base]. *)
Definition unload_inv (base : Z) (before : bool) (sys : system) : Prop :=
  poll_thread (vars sys) <> 0 /\
  (unload sys <> ExitNotCalled -> running (vars sys) = false) /\
  (unload sys <> ExitDone -> gpio_base (vars sys) = base) /\
  (unload sys = ExitJoined \/ unload sys = ExitDone -> thread sys = ThreadReturned) /\
  (unload sys = ExitDone -> led_level base before (log (vars sys)) = false).

(** ** Bookkeeping for the register writes *)

(** The register writes of a log, newest first, as pairs of value and
    address. *)
Fixpoint register_writes (l : list event) : list (Z * Z) :=
  match l with
  | [] => []
  | Iowrite32 val addr :: l' => (val, addr) :: register_writes l'
  | _ :: l' => register_writes l'
  end.

(** A 32-bit access at [addr] lies within the block mapped at [base]. *)
Definition in_block (base addr : Z) : Prop :=
  base <= addr /\ addr + 4 <= base + GPIO_LEN.


(** The worker's two steps for one pass: the test of the loop condition,
    then the body fed with [smp]. *)
Definition one_pass (smp : sample) : list action := [Worker smp; Worker smp].

(** What holds of the mapping along every interleaving. *)
Definition mapping_inv (base : Z) (sys : system) : Prop :=
  (unload sys <> ExitDone ->
   mappings_held (log (vars sys)) = [base] /\ gpio_base (vars sys) = base) /\
  (unload sys = ExitDone ->
   mappings_held (log (vars sys)) = [] /\ gpio_base (vars sys) = 0 /\
   running (vars sys) = false).

(** ** The decision of the release block *)

Section Accepted.
Context `{cfg : KernelConfig}.

(** The sample [(curr, now)] of button [b] is a release, and the press it
    ends was measured shorter than one second. *)
Definition accepted (b : button) (curr now : Z) (s : state) : bool :=
  negb (curr =? last_state b s) && negb (curr =? 0)
  && (held (press_jiffies b s) now <? HZ).

(** The sample is the start of a press. *)
Definition press_seen (b : button) (curr : Z) (s : state) : bool :=
  negb (curr =? last_state b s) && (curr =? 0).

End Accepted.

(** The format of the message a button logs. *)
Definition press_message (b : button) : string :=
  match b with
  | BTN_INC => "Increment button pressed: freq => %d"
  | BTN_DEC => "Decrement button pressed: freq => %d"
  end.

(** ** Writes against the mappings held *)

(** A 32-bit access at [addr] falls inside one of the blocks [mapped]. *)
Definition covered (mapped : list Z) (addr : Z) : bool :=
  existsb (fun base => (base <=? addr) && (addr + 4 <=? base + GPIO_LEN)) mapped.

(** The register writes of a log that were issued while no block held at
    that moment covered their address, newest first. *)
Fixpoint stray_writes (l : list event) : list (Z * Z) :=
  match l with
  | [] => []
  | Iowrite32 val addr :: l' =>
      if covered (mappings_held l') addr then stray_writes l'
      else (val, addr) :: stray_writes l'
  | _ :: l' => stray_writes l'
  end.

(** What holds along every interleaving of a loaded module whose block is
    mapped at [base]. *)
Definition driver_inv (base : Z) (sys : system) : Prop :=
  unload_inv base false sys /\ mapping_inv base sys /\
  stray_writes (log (vars sys)) = [].

(** * Properties *)

(** ** 32-bit arithmetic *)

Lemma wrap_in_range (z : Z) : CInt.in_range (CInt.wrap z).
Proof.
  unfold CInt.in_range, CInt.wrap, CInt.INT_MIN, CInt.INT_MAX.
  pose proof (Z.mod_pos_bound (z + 2 ^ 31) (2 ^ 32) ltac:(lia)). lia.
Qed.

Lemma wrap_small (z : Z) : CInt.in_range z -> CInt.wrap z = z.
Proof.
  unfold CInt.in_range, CInt.wrap, CInt.INT_MIN, CInt.INT_MAX. intros H.
  rewrite Z.mod_small by lia. lia.
Qed.

Ltac unfold_checks :=
  unfold check, check_increment, check_decrement, last_state, press_jiffies,
    set_blink_freq, set_last_inc_state, set_last_dec_state,
    set_inc_press_jiffies, set_dec_press_jiffies, emit in *.

Ltac split_ifs :=
  repeat match goal with
         | |- context [if ?c then _ else _] => destruct c eqn:?; simpl in *
         end.

(** Evaluates the setters and projections of [state], each argument once. *)
Ltac run_setters :=
  cbv beta iota zeta delta
    [emit set_gpio_base set_poll_thread set_running set_blink_freq
     set_last_inc_state set_last_dec_state set_inc_press_jiffies
     set_dec_press_jiffies gpio_base poll_thread running blink_freq
     last_inc_state last_dec_state inc_press_jiffies dec_press_jiffies log
     gpio_set_pin gpio_clear_pin fst snd].

Section ButtonFacts.
Context `{cfg : KernelConfig}.

Lemma check_last_state (b : button) (curr now : Z) (s : state) :
  last_state b (check b curr now s) = curr.
Proof.
  destruct b; unfold_checks.
  - destruct (curr =? last_inc_state s) eqn:E; simpl.
    + apply Z.eqb_eq in E. congruence.
    + split_ifs; reflexivity.
  - destruct (curr =? last_dec_state s) eqn:E; simpl.
    + apply Z.eqb_eq in E. congruence.
    + split_ifs; reflexivity.
Qed.

(** A sample at the level already stored changes nothing. *)
Lemma check_same_level (b : button) (now : Z) (s : state) :
  check b (last_state b s) now s = s.
Proof.
  destruct b; unfold_checks; rewrite Z.eqb_refl; reflexivity.
Qed.

Lemma check_all_held (b : button) (t_hold : list Z) (s : state) :
  last_state b s = 0 ->
  check_all b (map (fun t => (0, t)) t_hold) s = s.
Proof.
  intros Hlow. induction t_hold as [|t ts IH]; simpl; [reflexivity|].
  unfold check_all in *. simpl.
  rewrite <- Hlow at 1. rewrite check_same_level. exact IH.
Qed.

(** What the press block does to a button at rest. *)
Lemma check_press (b : button) (now : Z) (s : state) :
  last_state b s = 1 ->
  let s' := check b 0 now s in
  last_state b s' = 0 /\ press_jiffies b s' = now /\
  blink_freq s' = blink_freq s /\ log s' = log s.
Proof.
  intros Hrest. destruct b; unfold_checks; simpl in *; rewrite Hrest; simpl; auto.
Qed.

(** The line a short press of the increment button logs. *)
Lemma check_increment_release_log (now : Z) (s : state) :
  last_state BTN_INC s = 0 ->
  held (press_jiffies BTN_INC s) now < HZ ->
  log (check BTN_INC 1 now s)
  = PrInfo "Increment button pressed: freq => %d"
           (Some (CInt.wrap (blink_freq s + 5))) :: log s.
Proof.
  intros Hdown Hshort. apply Z.ltb_lt in Hshort. unfold held in Hshort.
  unfold_checks. rewrite Hdown. simpl. rewrite Hshort. reflexivity.
Qed.

(** What the release block does to a button that is down. *)
Lemma check_release (b : button) (now : Z) (s : state) :
  last_state b s = 0 ->
  let s' := check b 1 now s in
  last_state b s' = 1 /\
  blink_freq s' =
    if held (press_jiffies b s) now <? HZ then
      match b with
      | BTN_INC => CInt.wrap (blink_freq s + 5)
      | BTN_DEC => Z.max (CInt.wrap (blink_freq s - 5)) 1
      end
    else blink_freq s.
Proof.
  intros Hdown. unfold held.
  destruct b; unfold_checks; simpl in *; rewrite Hdown; simpl.
  - destruct (wrap_ulong (now - inc_press_jiffies s) <? HZ); simpl; auto.
  - destruct (wrap_ulong (now - dec_press_jiffies s) <? HZ); simpl; auto.
    split; [reflexivity|].
    destruct (CInt.wrap (blink_freq s - 5) <? 1) eqn:E; simpl;
      [apply Z.ltb_lt in E | apply Z.ltb_ge in E]; lia.
Qed.

(** A whole press, with the arithmetic as the machine does it. *)
Lemma press_release_freq (b : button) (t_down : Z) (t_hold : list Z) (t_up : Z)
                         (s : state) :
  last_state b s = 1 ->
  let s' := press_release b t_down t_hold t_up s in
  last_state b s' = 1 /\
  blink_freq s' =
    if held t_down t_up <? HZ then
      match b with
      | BTN_INC => CInt.wrap (blink_freq s + 5)
      | BTN_DEC => Z.max (CInt.wrap (blink_freq s - 5)) 1
      end
    else blink_freq s.
Proof.
  intros Hrest. unfold press_release.
  destruct (check_press b t_down s Hrest) as (Hlow & Hjif & Hfreq & _).
  rewrite check_all_held by exact Hlow.
  destruct (check_release b t_up (check b 0 t_down s) Hlow) as (Hup & Hrel).
  cbv zeta. rewrite Hup, Hrel, Hjif, Hfreq. auto.
Qed.

End ButtonFacts.

(** ** Frame facts of the two blocks *)

Section Frames.
Context `{cfg : KernelConfig}.

Lemma check_increment_frame (curr now : Z) (s : state) :
  let s' := check_increment curr now s in
  last_dec_state s' = last_dec_state s /\
  dec_press_jiffies s' = dec_press_jiffies s /\
  gpio_base s' = gpio_base s /\
  poll_thread s' = poll_thread s /\
  running s' = running s.
Proof.
  unfold_checks. split_ifs; auto 6.
Qed.

Lemma check_decrement_frame (curr now : Z) (s : state) :
  let s' := check_decrement curr now s in
  last_inc_state s' = last_inc_state s /\
  inc_press_jiffies s' = inc_press_jiffies s /\
  gpio_base s' = gpio_base s /\
  poll_thread s' = poll_thread s /\
  running s' = running s.
Proof.
  unfold_checks. split_ifs; auto 6.
Qed.

Lemma check_other_button (b b' : button) (curr now : Z) (s : state) :
  b <> b' ->
  last_state b' (check b curr now s) = last_state b' s /\
  press_jiffies b' (check b curr now s) = press_jiffies b' s.
Proof.
  intros Hne. destruct b, b'; try congruence; simpl.
  - destruct (check_increment_frame curr now s) as (? & ? & _). auto.
  - destruct (check_decrement_frame curr now s) as (? & ? & _). auto.
Qed.

Lemma blink_led_frame (led : bool) (s : state) :
  let s' := snd (blink_led led s) in
  blink_freq s' = blink_freq s /\
  last_inc_state s' = last_inc_state s /\
  last_dec_state s' = last_dec_state s /\
  gpio_base s' = gpio_base s /\
  running s' = running s /\
  poll_thread s' = poll_thread s.
Proof.
  unfold blink_led. destruct led; simpl; auto 6.
Qed.

Lemma sleep_half_cycle_frame (s : state) :
  let s' := sleep_half_cycle s in
  last_inc_state s' = last_inc_state s /\
  last_dec_state s' = last_dec_state s /\
  gpio_base s' = gpio_base s /\
  running s' = running s /\
  poll_thread s' = poll_thread s.
Proof.
  unfold sleep_half_cycle. destruct (blink_freq s <? 1); simpl; auto 6.
Qed.

End Frames.

(** ** The stored level mirrors the input *)

Section Mirror.
Context `{cfg : KernelConfig}.

(** C6.  After a sample of a button is processed, the stored last level of
    that button is the level sampled, whether or not the sample was a
    transition: for one sample, for the last sample of any sequence, and
    for the two reads of one pass of the loop body. *)
Theorem last_level_mirrors_input :
  forall (b : button) (s : state),
    (forall curr now, last_state b (check b curr now s) = curr) /\
    (forall samples curr now,
        last_state b (check_all b (samples ++ [(curr, now)]) s) = curr) /\
    (forall smp led,
        let s' := snd (loop_body smp (led, s)) in
        last_inc_state s' = gpio_read_pin GPIO_BTN_INC (lev_inc smp) /\
        last_dec_state s' = gpio_read_pin GPIO_BTN_DEC (lev_dec smp)).
Proof.
  intros b s. split; [|split].
  - intros. apply check_last_state.
  - intros. unfold check_all. rewrite fold_left_app. simpl.
    apply check_last_state.
  - intros smp led. unfold loop_body.
    set (s1 := check_increment _ _ s).
    set (s2 := check_decrement _ _ s1).
    destruct (blink_led led s2) as [led' s3] eqn:Hled. cbn [snd].
    destruct (sleep_half_cycle_frame s3) as (Hi & Hd & _).
    pose proof (blink_led_frame led s2) as Hb. rewrite Hled in Hb. simpl in Hb.
    destruct Hb as (_ & Hi' & Hd' & _).
    rewrite Hi, Hd, Hi', Hd'. split.
    + subst s2. destruct (check_decrement_frame
        (gpio_read_pin GPIO_BTN_DEC (lev_dec smp)) (now_dec smp) s1) as (-> & _).
      subst s1. apply (check_last_state BTN_INC).
    + subst s2. apply (check_last_state BTN_DEC).
Qed.

End Mirror.

(** ** The two handlers do not interfere *)

Section Independence.
Context `{cfg : KernelConfig}.

(** C9.  Processing a sample of the increment button leaves the decrement
    button's last level and press timestamp as they were, and the other way
    round; neither handler writes [gpio_base], [poll_thread] or [running],
    so the frequency is the only variable both may write. *)
Theorem handlers_are_independent :
  forall (curr now : Z) (s : state),
    (last_dec_state (check_increment curr now s) = last_dec_state s /\
     dec_press_jiffies (check_increment curr now s) = dec_press_jiffies s) /\
    (last_inc_state (check_decrement curr now s) = last_inc_state s /\
     inc_press_jiffies (check_decrement curr now s) = inc_press_jiffies s) /\
    (forall b, gpio_base (check b curr now s) = gpio_base s /\
               poll_thread (check b curr now s) = poll_thread s /\
               running (check b curr now s) = running s).
Proof.
  intros curr now s.
  destruct (check_increment_frame curr now s) as (A1 & A2 & A3 & A4 & A5).
  destruct (check_decrement_frame curr now s) as (B1 & B2 & B3 & B4 & B5).
  repeat split; auto; destruct b; simpl; auto.
Qed.

End Independence.

(** ** Short and long presses *)

Section Presses.
Context `{cfg : KernelConfig}.

Lemma press_release_no_hold (b : button) (t_down : Z) (t_hold : list Z)
                            (t_up : Z) (s : state) :
  last_state b s = 1 ->
  press_release b t_down t_hold t_up s = check b 1 t_up (check b 0 t_down s).
Proof.
  intros Hrest. unfold press_release.
  destruct (check_press b t_down s Hrest) as (Hlow & _).
  rewrite check_all_held by exact Hlow. reflexivity.
Qed.

Lemma press_release_other (b b' : button) (t_down : Z) (t_hold : list Z)
                          (t_up : Z) (s : state) :
  b <> b' -> last_state b s = 1 ->
  last_state b' (press_release b t_down t_hold t_up s) = last_state b' s.
Proof.
  intros Hne Hrest. rewrite press_release_no_hold by exact Hrest.
  destruct (check_other_button b b' 1 t_up (check b 0 t_down s) Hne) as (-> & _).
  destruct (check_other_button b b' 0 t_down s Hne) as (-> & _).
  reflexivity.
Qed.

Lemma count_inc_cons (p : press) (ps : list press) :
  count_inc (p :: ps) = (if is_inc p then 1 else 0) + count_inc ps.
Proof.
  unfold count_inc. simpl. destruct (is_inc p); simpl List.length; lia.
Qed.

Lemma count_inc_nonneg (ps : list press) : 0 <= count_inc ps.
Proof. unfold count_inc. lia. Qed.

(** While the increments leave room below [INT_MAX], a sequence of presses
    keeps the frequency between the floor and what the increments add. *)
Lemma press_sequence_bounds (ps : list press) :
  forall (s : state) (k : Z),
    last_inc_state s = 1 -> last_dec_state s = 1 ->
    1 <= blink_freq s <= k ->
    k + 5 * count_inc ps <= CInt.INT_MAX ->
    let s' := press_sequence ps s in
    last_inc_state s' = 1 /\ last_dec_state s' = 1 /\
    1 <= blink_freq s' <= k + 5 * count_inc ps.
Proof.
  induction ps as [|p ps IH]; intros s k Hi Hd Hf Hk.
  - simpl. unfold count_inc. simpl. repeat split; auto; lia.
  - rewrite count_inc_cons in Hk |- *.
    pose proof (count_inc_nonneg ps) as Hn.
    unfold press_sequence. simpl fold_left. fold (press_sequence ps (apply_press s p)).
    unfold apply_press, is_inc in *. destruct (p_button p) eqn:Hb; cbv iota in Hk |- *.
    + destruct (press_release_freq BTN_INC (p_down p) [] (p_up p) s Hi) as (Hi' & Hf').
      pose proof (press_release_other BTN_INC BTN_DEC (p_down p) [] (p_up p) s
                    ltac:(discriminate) Hi) as Hd'.
      unfold last_state in Hi', Hd'. rewrite Hd in Hd'.
      assert (Hb' : 1 <= blink_freq (press_release BTN_INC (p_down p) [] (p_up p) s)
                    <= k + 5).
      { rewrite Hf'. destruct (held (p_down p) (p_up p) <? HZ).
        - rewrite wrap_small; unfold CInt.in_range, CInt.INT_MAX, CInt.INT_MIN in *; lia.
        - lia. }
      destruct (IH _ (k + 5) Hi' Hd' Hb' ltac:(lia)) as (A & B & C).
      repeat split; auto; lia.
    + destruct (press_release_freq BTN_DEC (p_down p) [] (p_up p) s Hd) as (Hd' & Hf').
      pose proof (press_release_other BTN_DEC BTN_INC (p_down p) [] (p_up p) s
                    ltac:(discriminate) Hd) as Hi'.
      unfold last_state in Hi', Hd'. rewrite Hi in Hi'.
      assert (Hb' : 1 <= blink_freq (press_release BTN_DEC (p_down p) [] (p_up p) s)
                    <= k).
      { rewrite Hf'. destruct (held (p_down p) (p_up p) <? HZ).
        - rewrite wrap_small; unfold CInt.in_range, CInt.INT_MAX, CInt.INT_MIN in *; lia.
        - lia. }
      destruct (IH _ k Hi' Hd' Hb' ltac:(lia)) as (A & B & C).
      repeat split; auto; lia.
Qed.

(** [n] short presses of the increment button add [5 * n] while that fits. *)
Lemma inc_presses_freq (p : press) (n : nat) :
  p_button p = BTN_INC -> is_short p = true ->
  forall s : state,
    last_inc_state s = 1 ->
    CInt.INT_MIN <= blink_freq s ->
    blink_freq s + 5 * Z.of_nat n <= CInt.INT_MAX ->
    let s' := press_sequence (repeat p n) s in
    last_inc_state s' = 1 /\ blink_freq s' = blink_freq s + 5 * Z.of_nat n.
Proof.
  intros Hb Hshort. unfold is_short in Hshort.
  induction n as [|n IH]; intros s Hi Hlo Hhi.
  - simpl. split; [assumption | lia].
  - unfold press_sequence. simpl repeat. simpl fold_left.
    fold (press_sequence (repeat p n) (apply_press s p)).
    unfold apply_press. rewrite Hb.
    destruct (press_release_freq BTN_INC (p_down p) [] (p_up p) s Hi) as (Hi' & Hf').
    rewrite Hshort in Hf'. unfold last_state in Hi'.
    rewrite wrap_small in Hf'
      by (unfold CInt.in_range, CInt.INT_MAX, CInt.INT_MIN in *; lia).
    destruct (IH _ Hi') as (A & B).
    + rewrite Hf'. lia.
    + rewrite Hf'. lia.
    + split; [exact A|]. rewrite B, Hf'. lia.
Qed.

(** C1 (amended).  For either button taken on its own: a press (HIGH to LOW)
    followed by a release (LOW to HIGH) whose measured duration is below
    [HZ] ticks, one second, changes the frequency by exactly +5 (increment
    button) or by -5 with the floor at 1 (decrement button), provided the
    32-bit addition or subtraction does not overflow; a press held for [HZ]
    ticks or more leaves the frequency as it was. *)
Theorem short_press_adjusts_frequency :
  forall (b : button) (t_down : Z) (t_hold : list Z) (t_up : Z) (s : state),
    last_state b s = 1 ->
    CInt.in_range (blink_freq s) ->
    (held t_down t_up < HZ -> step_fits b (blink_freq s)) ->
    blink_freq (press_release b t_down t_hold t_up s) =
      if held t_down t_up <? HZ then adjusted b (blink_freq s)
      else blink_freq s.
Proof.
  intros b t_down t_hold t_up s Hrest Hrange Hfits.
  destruct (press_release_freq b t_down t_hold t_up s Hrest) as (_ & ->).
  destruct (held t_down t_up <? HZ) eqn:E; [|reflexivity].
  apply Z.ltb_lt in E. specialize (Hfits E).
  unfold CInt.in_range, CInt.INT_MAX, CInt.INT_MIN in *.
  destruct b; simpl in *; rewrite wrap_small;
    unfold CInt.in_range, CInt.INT_MAX, CInt.INT_MIN in *; lia.
Qed.

End Presses.

(** The first press of the specification's scenario: from the initial state,
    200 ms at 100 ticks per second. *)
Lemma short_press_adjusts_frequency_witness :
  last_state BTN_INC initial_state = 1 /\
  CInt.in_range (blink_freq initial_state) /\
  (held (cfg := rpi_armv7) 0 20 < (@HZ rpi_armv7) -> step_fits BTN_INC (blink_freq initial_state)) /\
  blink_freq (press_release (cfg := rpi_armv7) BTN_INC 0 [] 20 initial_state) = 7.
Proof.
  assert (H1 : last_state BTN_INC initial_state = 1) by reflexivity.
  assert (H2 : CInt.in_range (blink_freq initial_state))
    by (unfold CInt.in_range, CInt.INT_MIN, CInt.INT_MAX; simpl; lia).
  assert (H3 : held (cfg := rpi_armv7) 0 20 < (@HZ rpi_armv7) ->
               step_fits BTN_INC (blink_freq initial_state))
    by (intros _; unfold step_fits, CInt.INT_MAX; simpl; lia).
  split; [exact H1 | split; [exact H2 | split; [exact H3 |]]].
  rewrite (short_press_adjusts_frequency (cfg := rpi_armv7)
             BTN_INC 0 [] 20 initial_state H1 H2 H3).
  reflexivity.
Defined.

(** The frequency [at_int_max] has, and the rest state of the button. *)
Lemma at_int_max_reached :
  last_state BTN_INC at_int_max = 1 /\ blink_freq at_int_max = CInt.INT_MAX.
Proof.
  unfold last_state, at_int_max, presses_to_int_max.
  destruct (inc_presses_freq (cfg := rpi_armv7) quick_inc (Z.to_nat 429496729)
              eq_refl eq_refl initial_state eq_refl) as (A & B).
  - change (blink_freq initial_state) with 2. unfold CInt.INT_MIN. lia.
  - change (blink_freq initial_state) with 2. unfold CInt.INT_MAX. lia.
  - split; [exact A|]. rewrite B.
    change (blink_freq initial_state) with 2. unfold CInt.INT_MAX. lia.
Qed.

(** C1 as stated fails at the top of the [int] range.  The state
    [at_int_max] is the one 429496729 short presses of the increment button
    reach from the initial state; its frequency is 2147483647.  One more
    press, released 20 ticks (200 ms at [HZ = 100]) after it was seen, makes
    the frequency -2147483644, which is not 2147483647 + 5. *)
Lemma short_press_at_int_max_wraps :
  last_state BTN_INC at_int_max = 1 /\
  held (cfg := rpi_armv7) 0 20 < (@HZ rpi_armv7) /\
  blink_freq at_int_max = 2147483647 /\
  blink_freq (press_release (cfg := rpi_armv7) BTN_INC 0 [] 20 at_int_max)
    = -2147483644 /\
  blink_freq (press_release (cfg := rpi_armv7) BTN_INC 0 [] 20 at_int_max)
    <> (blink_freq at_int_max + 5).
Proof.
  destruct at_int_max_reached as (Hlast & Hfreq).
  destruct (press_release_freq (cfg := rpi_armv7) BTN_INC 0 [] 20 at_int_max Hlast)
    as (_ & Hrel).
  assert (Hheld : (held (cfg := rpi_armv7) 0 20 <? @HZ rpi_armv7) = true)
    by reflexivity.
  rewrite Hheld, Hfreq in Hrel.
  assert (Hwrap : CInt.wrap (CInt.INT_MAX + 5) = -2147483644) by reflexivity.
  rewrite Hwrap in Hrel.
  split; [exact Hlast|].
  split; [apply Z.ltb_lt; exact Hheld|].
  split; [exact Hfreq|].
  split; [exact Hrel|].
  rewrite Hrel, Hfreq. unfold CInt.INT_MAX. lia.
Qed.

(** ** The floor of the frequency *)

Section Floor.
Context `{cfg : KernelConfig}.

Lemma sleep_half_cycle_floor (s : state) : 1 <= blink_freq (sleep_half_cycle s).
Proof.
  unfold sleep_half_cycle.
  destruct (blink_freq s <? 1) eqn:E; simpl;
    [lia | apply Z.ltb_ge in E; exact E].
Qed.

Lemma loop_body_floor (smp : sample) (t : bool * state) :
  1 <= blink_freq (snd (loop_body smp t)).
Proof.
  destruct t as [led s]. unfold loop_body.
  destruct (blink_led led _) as [led' s3]. cbn [snd].
  apply sleep_half_cycle_floor.
Qed.

Lemma iterations_floor (smps : list sample) :
  forall t : bool * state,
    1 <= blink_freq (snd t) -> 1 <= blink_freq (snd (iterations smps t)).
Proof.
  induction smps as [|smp smps IH]; intros t Ht; [exact Ht|].
  unfold iterations. simpl fold_left. apply IH. apply loop_body_floor.
Qed.

(** C2 (amended).  From the initial frequency 2, after any sequence of
    presses of the two buttons the frequency is at least 1, as long as the
    increments leave it within [int] (at most 429496729 of them); and
    whatever the buttons do, the frequency is at least 1 at the end of every
    pass of the loop body. *)
Theorem frequency_stays_above_floor :
  (forall ps : list press,
      2 + 5 * count_inc ps <= CInt.INT_MAX ->
      1 <= blink_freq (press_sequence ps initial_state)) /\
  (forall (smps : list sample) (led : bool),
      1 <= blink_freq (snd (iterations smps (led, initial_state)))).
Proof.
  split.
  - intros ps Hfit.
    destruct (press_sequence_bounds ps initial_state 2 eq_refl eq_refl) as (_ & _ & Hb).
    + simpl. lia.
    + exact Hfit.
    + lia.
  - intros smps led. apply iterations_floor. simpl. lia.
Qed.

End Floor.

(** Two decrements around one increment, from the initial state. *)
Lemma frequency_stays_above_floor_witness :
  2 + 5 * count_inc [mkPress BTN_DEC 0 0; mkPress BTN_INC 0 0; mkPress BTN_DEC 7 9]
    <= CInt.INT_MAX /\
  1 <= blink_freq (press_sequence (cfg := rpi_armv7)
                     [mkPress BTN_DEC 0 0; mkPress BTN_INC 0 0; mkPress BTN_DEC 7 9]
                     initial_state).
Proof.
  assert (Hfit : 2 + 5 * count_inc
                   [mkPress BTN_DEC 0 0; mkPress BTN_INC 0 0; mkPress BTN_DEC 7 9]
                 <= CInt.INT_MAX)
    by (vm_compute; discriminate).
  split; [exact Hfit|].
  exact (proj1 (frequency_stays_above_floor (cfg := rpi_armv7)) _ Hfit).
Defined.

Lemma press_sequence_snoc `{cfg : KernelConfig} (ps : list press) (p : press)
                          (s : state) :
  press_sequence (ps ++ [p]) s = apply_press (press_sequence ps s) p.
Proof. unfold press_sequence. rewrite fold_left_app. reflexivity. Qed.

Lemma apply_quick_inc `{cfg : KernelConfig} (s : state) :
  apply_press s quick_inc = press_release BTN_INC 0 [] 0 s.
Proof. reflexivity. Qed.

Lemma at_int_max_unfold :
  at_int_max = press_sequence (cfg := rpi_armv7) presses_to_int_max initial_state.
Proof. reflexivity. Qed.

(** C2 as stated fails: the 429496729 quick presses of the increment button
    that lead to [at_int_max], followed by one more, leave the frequency at
    -2147483644, below the floor. *)
Lemma increments_past_int_max_go_negative :
  (is_short (cfg := rpi_armv7) quick_inc = true) /\
  blink_freq (press_sequence (cfg := rpi_armv7)
                (presses_to_int_max ++ [quick_inc]) initial_state)
    = -2147483644 /\
  hd (Msleep 0)
     (log (press_sequence (cfg := rpi_armv7)
             (presses_to_int_max ++ [quick_inc]) initial_state))
    = PrInfo "Increment button pressed: freq => %d" (Some (-2147483644)) /\
  ~ 1 <= blink_freq (press_sequence (cfg := rpi_armv7)
                       (presses_to_int_max ++ [quick_inc]) initial_state).
Proof.
  destruct at_int_max_reached as (Hlast & Hfreq).
  assert (Hshort : is_short (cfg := rpi_armv7) quick_inc = true) by reflexivity.
  assert (Hval : blink_freq (press_sequence (cfg := rpi_armv7)
                               (presses_to_int_max ++ [quick_inc]) initial_state)
                 = -2147483644).
  { rewrite press_sequence_snoc. rewrite <- at_int_max_unfold.
    rewrite apply_quick_inc.
    destruct (press_release_freq (cfg := rpi_armv7) BTN_INC 0 [] 0 at_int_max Hlast)
      as (_ & Hrel).
    rewrite Hrel, Hfreq. reflexivity. }
  split; [exact Hshort|].
  split; [exact Hval|].
  split; [|rewrite Hval; lia].
  rewrite press_sequence_snoc. rewrite <- at_int_max_unfold.
  rewrite apply_quick_inc.
  rewrite (press_release_no_hold (cfg := rpi_armv7) BTN_INC 0 [] 0 at_int_max Hlast).
  destruct (check_press (cfg := rpi_armv7) BTN_INC 0 at_int_max Hlast)
    as (Hlow & Hjif & Hf & _).
  rewrite (check_increment_release_log (cfg := rpi_armv7) 0 _ Hlow)
    by (rewrite Hjif; reflexivity).
  cbn [hd]. rewrite Hf, Hfreq. reflexivity.
Qed.

(** ** The half-period *)

Lemma half_period_floor_division (f : Z) :
  1 <= f -> half_period f = 1000 / f / 2 /\ 0 <= half_period f <= 500.
Proof.
  intros Hf. unfold half_period.
  assert (H0 : 0 <= 1000 / f) by (apply Z.div_pos; lia).
  assert (H1 : 1000 / f <= 1000).
  { apply Z.div_le_upper_bound; nia. }
  rewrite (Z.quot_div_nonneg 1000 f) by lia.
  rewrite !(Z.quot_div_nonneg (1000 / f) 2) by lia.
  split; [reflexivity|]. split.
  - apply Z.div_pos; lia.
  - apply Z.div_le_upper_bound; lia.
Qed.

Lemma half_period_zero (f : Z) : 501 <= f -> half_period f = 0.
Proof.
  intros Hf. destruct (half_period_floor_division f ltac:(lia)) as (-> & _).
  assert (H0 : 0 <= 1000 / f) by (apply Z.div_pos; lia).
  assert (H1 : 1000 / f < 2) by (apply Z.div_lt_upper_bound; lia).
  apply Z.div_small. lia.
Qed.

Section HalfPeriod.
Context `{cfg : KernelConfig}.

Lemma sleep_half_cycle_spec (s : state) :
  let s' := sleep_half_cycle s in
  blink_freq s' = Z.max (blink_freq s) 1 /\
  log s' = Msleep (half_period (blink_freq s')) :: log s.
Proof.
  unfold sleep_half_cycle.
  destruct (blink_freq s <? 1) eqn:E; simpl;
    [apply Z.ltb_lt in E | apply Z.ltb_ge in E]; split; try reflexivity; lia.
Qed.

(** The state in which the body reaches the clamp, and the log it has
    there. *)
Lemma loop_body_sleep (smp : sample) (led : bool) (s : state) :
  let s2 := check_decrement (gpio_read_pin GPIO_BTN_DEC (lev_dec smp)) (now_dec smp)
              (check_increment (gpio_read_pin GPIO_BTN_INC (lev_inc smp))
                               (now_inc smp) s) in
  let s' := snd (loop_body smp (led, s)) in
  blink_freq s' = Z.max (blink_freq s2) 1 /\
  log s' = Msleep (half_period (blink_freq s')) :: log (snd (blink_led led s2)).
Proof.
  cbv zeta. unfold loop_body.
  set (s2 := check_decrement _ _ _).
  pose proof (blink_led_frame led s2) as Hb.
  destruct (blink_led led s2) as [led' s3]. cbn [snd] in *.
  destruct Hb as (Hf & _).
  destruct (sleep_half_cycle_spec s3) as (A & B).
  rewrite A, B, Hf. rewrite <- Hf, <- A. auto.
Qed.

(** C3.  The delay each pass of the body sleeps is [(1000 / f) / 2] with
    truncating division, where [f] is the frequency the two button blocks
    leave, clamped to at least 1 just before the division: the divisor is
    never 0, truncation and flooring agree on it, and the delay lies between
    0 and 500.  For frequency 7 the delay is 71. *)
Theorem half_period_is_well_defined :
  forall (smp : sample) (led : bool) (s : state),
    let s2 := check_decrement (gpio_read_pin GPIO_BTN_DEC (lev_dec smp)) (now_dec smp)
                (check_increment (gpio_read_pin GPIO_BTN_INC (lev_inc smp))
                                 (now_inc smp) s) in
    let s' := snd (loop_body smp (led, s)) in
    let f := Z.max (blink_freq s2) 1 in
    blink_freq s' = f /\
    f <> 0 /\
    hd (Msleep (-1)) (log s') = Msleep (Z.quot (Z.quot 1000 f) 2) /\
    Z.quot (Z.quot 1000 f) 2 = 1000 / f / 2 /\
    0 <= Z.quot (Z.quot 1000 f) 2 <= 500 /\
    half_period 7 = 71.
Proof.
  intros smp led s. cbv zeta.
  destruct (loop_body_sleep smp led s) as (A & B).
  set (f := Z.max _ 1) in *.
  assert (Hf : 1 <= f) by (subst f; lia).
  destruct (half_period_floor_division f Hf) as (C & D).
  unfold half_period in C, D.
  rewrite B, A. unfold half_period. simpl hd.
  repeat split; try assumption; try lia.
Qed.

(** C10.  For every frequency from 501 up the half-period
    [(1000 / f) / 2] is 0, so a pass of the body that ends at such a
    frequency sleeps for 0 ms; 100 short presses of the increment button
    take the initial frequency 2 to 502, whose half-period is 0. *)
Theorem half_period_vanishes_from_501 :
  (forall f : Z, 501 <= f -> half_period f = 0) /\
  (forall (smp : sample) (led : bool) (s : state),
      let s' := snd (loop_body smp (led, s)) in
      501 <= blink_freq s' -> hd (Msleep (-1)) (log s') = Msleep 0) /\
  (forall p : press,
      p_button p = BTN_INC -> is_short p = true ->
      let s := press_sequence (repeat p 100) initial_state in
      blink_freq s = 502 /\ half_period (blink_freq s) = 0).
Proof.
  split; [exact half_period_zero | split].
  - intros smp led s s' Hf. subst s'.
    destruct (loop_body_sleep smp led s) as (_ & B).
    rewrite B. simpl hd. rewrite half_period_zero by exact Hf. reflexivity.
  - intros p Hb Hshort.
    destruct (inc_presses_freq p 100 Hb Hshort initial_state eq_refl) as (_ & A).
    + unfold CInt.INT_MIN. simpl. lia.
    + unfold CInt.INT_MAX. simpl. lia.
    + cbv zeta. rewrite A. split; reflexivity.
Qed.

End HalfPeriod.

(** Frequency 502, and the 100 quick presses that reach it. *)
Lemma half_period_vanishes_from_501_witness :
  501 <= 502 /\ half_period 502 = 0 /\
  p_button quick_inc = BTN_INC /\
  is_short (cfg := rpi_armv7) quick_inc = true /\
  blink_freq (press_sequence (cfg := rpi_armv7) (repeat quick_inc 100) initial_state)
    = 502.
Proof.
  assert (H501 : 501 <= 502) by lia.
  assert (Hshort : is_short (cfg := rpi_armv7) quick_inc = true) by reflexivity.
  split; [exact H501|].
  split; [exact (proj1 (half_period_vanishes_from_501 (cfg := rpi_armv7)) 502 H501)|].
  split; [reflexivity|].
  split; [exact Hshort|].
  exact (proj1 (proj2 (proj2 (half_period_vanishes_from_501 (cfg := rpi_armv7)))
                  quick_inc eq_refl Hshort)).
Defined.

(** ** The LED toggles once per pass *)

Section Toggle.
Context `{cfg : KernelConfig}.

Lemma led_writes_check_increment (base curr now : Z) (s : state) :
  led_writes base (log (check_increment curr now s)) = led_writes base (log s).
Proof. unfold_checks. split_ifs; reflexivity. Qed.

Lemma led_writes_check_decrement (base curr now : Z) (s : state) :
  led_writes base (log (check_decrement curr now s)) = led_writes base (log s).
Proof. unfold_checks. split_ifs; reflexivity. Qed.

Lemma led_writes_blink_led (led : bool) (s : state) :
  fst (blink_led led s) = negb led /\
  led_writes (gpio_base s) (log (snd (blink_led led s)))
    = negb led :: led_writes (gpio_base s) (log s).
Proof.
  unfold blink_led, gpio_set_pin, gpio_clear_pin, emit.
  destruct led; simpl fst; simpl snd; simpl log; split; try reflexivity.
  - cbn [led_writes].
    change (Z.testbit (Z.shiftl 1 GPIO_LED) GPIO_LED) with true. cbv iota.
    rewrite Z.eqb_refl.
    replace (gpio_base s + GPCLR0_OFFSET =? gpio_base s + GPSET0_OFFSET) with false
      by (symmetry; apply Z.eqb_neq; unfold GPCLR0_OFFSET, GPSET0_OFFSET; lia).
    reflexivity.
  - cbn [led_writes].
    change (Z.testbit (Z.shiftl 1 GPIO_LED) GPIO_LED) with true. cbv iota.
    rewrite Z.eqb_refl. reflexivity.
Qed.

(** One pass of the body: the local flag flips and the LED pin receives
    exactly one write, a set when the flag was off and a clear when it was
    on. *)
Lemma loop_body_toggle (smp : sample) (led : bool) (s : state) :
  fst (loop_body smp (led, s)) = negb led /\
  gpio_base (snd (loop_body smp (led, s))) = gpio_base s /\
  led_writes (gpio_base s) (log (snd (loop_body smp (led, s))))
    = negb led :: led_writes (gpio_base s) (log s).
Proof.
  destruct (loop_body_sleep smp led s) as (_ & Hlog).
  unfold loop_body in *.
  set (s1 := check_increment _ _ s) in *.
  set (s2 := check_decrement _ _ s1) in *.
  assert (Hbase : gpio_base s2 = gpio_base s).
  { subst s2. destruct (check_decrement_frame
      (gpio_read_pin GPIO_BTN_DEC (lev_dec smp)) (now_dec smp) s1) as (_ & _ & -> & _).
    subst s1. destruct (check_increment_frame
      (gpio_read_pin GPIO_BTN_INC (lev_inc smp)) (now_inc smp) s) as (_ & _ & -> & _).
    reflexivity. }
  destruct (led_writes_blink_led led s2) as (Hfst & Hw).
  pose proof (blink_led_frame led s2) as Hb.
  destruct (blink_led led s2) as [led' s3]. cbn [fst snd] in *.
  destruct Hb as (_ & _ & _ & Hb & _).
  destruct (sleep_half_cycle_frame s3) as (_ & _ & Hs & _).
  split; [exact Hfst|]. split; [congruence|].
  rewrite Hlog. cbn [led_writes]. rewrite <- Hbase, Hw. f_equal.
  subst s2. rewrite led_writes_check_decrement.
  subst s1. rewrite led_writes_check_increment. reflexivity.
Qed.

Lemma iterations_snoc (smps : list sample) (smp : sample) (t : bool * state) :
  iterations (smps ++ [smp]) t = loop_body smp (iterations smps t).
Proof. unfold iterations. rewrite fold_left_app. reflexivity. Qed.

Lemma iterations_led (smps : list sample) (led : bool) (s : state) :
  fst (iterations smps (led, s)) = xorb led (Nat.odd (List.length smps)) /\
  gpio_base (snd (iterations smps (led, s))) = gpio_base s.
Proof.
  induction smps as [|smp smps IH] using rev_ind.
  - simpl. rewrite xorb_false_r. auto.
  - rewrite iterations_snoc.
    destruct (iterations smps (led, s)) as [led1 s1] eqn:E. cbn [fst snd] in IH.
    destruct IH as (IHl & IHb).
    destruct (loop_body_toggle smp led1 s1) as (A & B & _).
    rewrite A, B, IHl, IHb. split; [|reflexivity].
    rewrite length_app, Nat.add_1_r, Nat.odd_succ, <- Nat.negb_odd.
    destruct led, (Nat.odd (List.length smps)); reflexivity.
Qed.

(** C5.  Every pass of the loop body flips the output and writes the LED
    pin exactly once (a set when turning it on, a clear when turning it
    off); started unlit, the output is lit after pass [n] exactly when [n]
    is odd, the level of the pin agrees with it, and the output is never lit
    after two consecutive passes. *)
Theorem output_alternates :
  (forall (smp : sample) (led : bool) (s : state),
      fst (loop_body smp (led, s)) = negb led /\
      led_writes (gpio_base s) (log (snd (loop_body smp (led, s))))
        = negb led :: led_writes (gpio_base s) (log s)) /\
  (forall (smps : list sample) (s : state),
      fst (iterations smps (false, s)) = Nat.odd (List.length smps)) /\
  (forall (smps : list sample) (smp : sample) (s : state) (before : bool),
      led_level (gpio_base s) before (log (snd (iterations (smps ++ [smp]) (false, s))))
        = Nat.odd (List.length (smps ++ [smp]))) /\
  (forall (smps : list sample) (smp : sample) (s : state),
      fst (iterations smps (false, s)) &&
      fst (iterations (smps ++ [smp]) (false, s)) = false).
Proof.
  split; [|split; [|split]].
  - intros smp led s. destruct (loop_body_toggle smp led s) as (A & _ & B). auto.
  - intros smps s. destruct (iterations_led smps false s) as (A & _). exact A.
  - intros smps smp s before.
    destruct (iterations_led (smps ++ [smp]) false s) as (A & _).
    rewrite iterations_snoc in *.
    destruct (iterations_led smps false s) as (A1 & B1).
    destruct (iterations smps (false, s)) as [led1 s1]. cbn [fst snd] in *.
    destruct (loop_body_toggle smp led1 s1) as (C & _ & D).
    unfold led_level. rewrite <- B1, D. simpl hd. rewrite <- C. exact A.
  - intros smps smp s. rewrite iterations_snoc.
    destruct (iterations smps (false, s)) as [led1 s1]. cbn [fst].
    destruct (loop_body_toggle smp led1 s1) as (C & _). rewrite C.
    destruct led1; reflexivity.
Qed.

End Toggle.

(** ** Loading *)

Section Loading.
Context `{cfg : KernelConfig}.

Lemma configure_frame (env : init_env) (s : state) :
  let s' := configure_buttons env (configure_led env s) in
  gpio_base s' = gpio_base s /\ blink_freq s' = blink_freq s /\
  last_inc_state s' = last_inc_state s /\ last_dec_state s' = last_dec_state s /\
  mappings_held (log s') = mappings_held (log s) /\
  worker_started (log s') = worker_started (log s).
Proof.
  destruct s. cbv zeta. unfold configure_buttons, configure_led. run_setters.
  cbn [mappings_held worker_started]. auto 8.
Qed.

(** [two_button_init] writes none of the variables the loop starts from. *)
Lemma two_button_init_frame (env : init_env) (s : state) :
  let s' := snd (two_button_init env s) in
  blink_freq s' = blink_freq s /\
  last_inc_state s' = last_inc_state s /\
  last_dec_state s' = last_dec_state s.
Proof.
  destruct s. cbv zeta. unfold two_button_init, configure_buttons, configure_led.
  destruct (gpio_base _ =? 0); [run_setters; auto|].
  destruct (IS_ERR _); run_setters; auto.
Qed.

(** An error pointer of a 32-bit or 64-bit kernel decodes to a negated
    error number. *)
Lemma PTR_ERR_of_error (ptr : Z) :
  BITS_PER_LONG = 32 \/ BITS_PER_LONG = 64 ->
  0 <= ptr < 2 ^ BITS_PER_LONG ->
  IS_ERR ptr = true ->
  PTR_ERR ptr = ptr - 2 ^ BITS_PER_LONG /\ - MAX_ERRNO <= PTR_ERR ptr < 0.
Proof.
  intros Hbits Hptr Herr. unfold IS_ERR, PTR_ERR, wrap_ulong, MAX_ERRNO in *.
  apply Z.leb_le in Herr.
  destruct Hbits as [Hb | Hb]; rewrite Hb in *.
  - change (Z.opp 4095 mod 2 ^ 32) with 4294963201 in Herr.
    change (2 ^ (32 - 1)) with 2147483648. change (2 ^ 32) with 4294967296 in *.
    destruct (ptr <? 2147483648) eqn:E; [apply Z.ltb_lt in E; lia|].
    rewrite wrap_small by (unfold CInt.in_range, CInt.INT_MIN, CInt.INT_MAX; lia).
    lia.
  - change (Z.opp 4095 mod 2 ^ 64) with 18446744073709547521 in Herr.
    change (2 ^ (64 - 1)) with 9223372036854775808.
    change (2 ^ 64) with 18446744073709551616 in *.
    destruct (ptr <? 9223372036854775808) eqn:E; [apply Z.ltb_lt in E; lia|].
    rewrite wrap_small by (unfold CInt.in_range, CInt.INT_MIN, CInt.INT_MAX; lia).
    lia.
Qed.

(** C7.  When the mapping succeeded and [kthread_run] returns an error
    pointer, [two_button_init] unmaps the block it mapped as its last
    effect and returns the error number the pointer carries, a negative
    value; loading from the initial state then leaves no mapping held and no
    worker, and no system to run. *)
Theorem worker_launch_failure_unwinds :
  forall env : init_env,
    BITS_PER_LONG = 32 \/ BITS_PER_LONG = 64 ->
    ioremap_result env <> 0 ->
    0 <= kthread_run_result env < 2 ^ BITS_PER_LONG ->
    IS_ERR (kthread_run_result env) = true ->
    (forall s : state,
        let ret := fst (two_button_init env s) in
        let s' := snd (two_button_init env s) in
        ret = kthread_run_result env - 2 ^ BITS_PER_LONG /\
        - MAX_ERRNO <= ret < 0 /\
        hd (Msleep 0) (log s') = Iounmap (ioremap_result env) /\
        mappings_held (log s')
          = remove Z.eq_dec (ioremap_result env) (mappings_held (log s)) /\
        worker_started (log s') = worker_started (log s)) /\
    mappings_held (log (snd (two_button_init env initial_state))) = [] /\
    worker_started (log (snd (two_button_init env initial_state))) = false /\
    load env = (kthread_run_result env - 2 ^ BITS_PER_LONG, None).
Proof.
  intros env Hbits Hmap Hptr Herr.
  destruct (PTR_ERR_of_error _ Hbits Hptr Herr) as (Hcode & Hneg).
  assert (Hnz : (ioremap_result env =? 0) = false) by (apply Z.eqb_neq; exact Hmap).
  assert (Hall : forall s : state,
             let ret := fst (two_button_init env s) in
             let s' := snd (two_button_init env s) in
             ret = kthread_run_result env - 2 ^ BITS_PER_LONG /\
             - MAX_ERRNO <= ret < 0 /\
             hd (Msleep 0) (log s') = Iounmap (ioremap_result env) /\
             mappings_held (log s')
               = remove Z.eq_dec (ioremap_result env) (mappings_held (log s)) /\
             worker_started (log s') = worker_started (log s)).
  { intros s. destruct s. cbv zeta.
    unfold two_button_init, configure_buttons, configure_led. run_setters.
    rewrite Hnz, Herr. cbv beta iota.
    split; [exact Hcode|]. split; [exact Hneg|]. split; [reflexivity|].
    cbn [mappings_held worker_started]. rewrite Hnz, Herr.
    cbn [remove negb orb]. destruct (Z.eq_dec _ _); [auto | congruence]. }
  split; [exact Hall|].
  destruct (Hall initial_state) as (Hret & _ & _ & Hm & Hw).
  split; [rewrite Hm; reflexivity|]. split; [rewrite Hw; reflexivity|].
  unfold load. destruct (two_button_init env initial_state) as [ret s'].
  cbn [fst snd] in *. subst ret.
  replace (_ =? 0) with false; [reflexivity|].
  symmetry. apply Z.eqb_neq. rewrite <- Hcode. lia.
Qed.

(** C8.  When the module has loaded, the worker is about to test the loop
    condition for the first time, no pass has run, and the state is: the
    frequency is 2, both buttons are recorded HIGH, and the output flag is
    off. *)
Theorem startup_state :
  forall (env : init_env) (sys : system),
    snd (load env) = Some sys ->
    blink_freq (vars sys) = 2 /\
    last_inc_state (vars sys) = 1 /\
    last_dec_state (vars sys) = 1 /\
    led_on sys = false /\
    thread sys = AtLoopTest /\
    passes sys = 0%nat.
Proof.
  intros env sys. unfold load.
  pose proof (two_button_init_frame env initial_state) as Hf.
  destruct (two_button_init env initial_state) as [ret s]. cbn [snd] in *.
  destruct (ret =? 0); [|discriminate].
  intros Heq. injection Heq as <-. unfold loaded. cbn [vars led_on thread passes].
  destruct Hf as (-> & -> & ->). repeat split.
Qed.

End Loading.

(** [kthread_run] fails with [-ENOMEM] on the 32-bit kernel. *)
Lemma worker_launch_failure_unwinds_witness :
  (@BITS_PER_LONG rpi_armv7 = 32 \/ @BITS_PER_LONG rpi_armv7 = 64) /\
  ioremap_result env_no_worker <> 0 /\
  0 <= kthread_run_result env_no_worker < 2 ^ @BITS_PER_LONG rpi_armv7 /\
  IS_ERR (cfg := rpi_armv7) (kthread_run_result env_no_worker) = true /\
  load (cfg := rpi_armv7) env_no_worker = (- ENOMEM, None).
Proof.
  assert (H1 : @BITS_PER_LONG rpi_armv7 = 32 \/ @BITS_PER_LONG rpi_armv7 = 64)
    by (left; reflexivity).
  assert (H2 : ioremap_result env_no_worker <> 0) by discriminate.
  assert (H3 : 0 <= kthread_run_result env_no_worker < 2 ^ @BITS_PER_LONG rpi_armv7)
    by (split; [discriminate | reflexivity]).
  assert (H4 : IS_ERR (cfg := rpi_armv7) (kthread_run_result env_no_worker) = true)
    by reflexivity.
  split; [exact H1|]. split; [exact H2|]. split; [exact H3|]. split; [exact H4|].
  exact (proj2 (proj2 (proj2
           (worker_launch_failure_unwinds (cfg := rpi_armv7) env_no_worker H1 H2 H3 H4)))).
Defined.

(** The module loaded by [env_ok]. *)
Lemma startup_state_witness :
  snd (load (cfg := rpi_armv7) env_ok) = Some loaded_ok /\
  blink_freq (vars loaded_ok) = 2 /\
  last_inc_state (vars loaded_ok) = 1 /\
  last_dec_state (vars loaded_ok) = 1 /\
  led_on loaded_ok = false /\
  thread loaded_ok = AtLoopTest /\
  passes loaded_ok = 0%nat.
Proof.
  assert (H : snd (load (cfg := rpi_armv7) env_ok) = Some loaded_ok) by reflexivity.
  split; [exact H|].
  exact (startup_state (cfg := rpi_armv7) env_ok loaded_ok H).
Defined.

(** ** Stopping *)

Section Stopping.
Context `{cfg : KernelConfig}.

Lemma loop_body_globals (smp : sample) (led : bool) (s : state) :
  let s' := snd (loop_body smp (led, s)) in
  gpio_base s' = gpio_base s /\
  poll_thread s' = poll_thread s /\
  running s' = running s.
Proof.
  cbv zeta. unfold loop_body.
  set (c1 := gpio_read_pin GPIO_BTN_INC _). set (c2 := gpio_read_pin GPIO_BTN_DEC _).
  destruct (check_increment_frame c1 (now_inc smp) s) as (_ & _ & A1 & A2 & A3).
  set (s1 := check_increment _ _ s) in *.
  destruct (check_decrement_frame c2 (now_dec smp) s1) as (_ & _ & B1 & B2 & B3).
  set (s2 := check_decrement _ _ s1) in *.
  pose proof (blink_led_frame led s2) as Hb.
  destruct (blink_led led s2) as [led' s3]. cbn [snd] in *.
  destruct Hb as (_ & _ & _ & C1 & C3 & C2).
  destruct (sleep_half_cycle_frame s3) as (_ & _ & D1 & D3 & D2).
  repeat split; congruence.
Qed.

Lemma exit_cleanup_spec (s : state) (before : bool) :
  poll_thread (exit_cleanup s) = poll_thread s /\
  running (exit_cleanup s) = running s /\
  led_level (gpio_base s) before (log (exit_cleanup s)) = false.
Proof.
  destruct s as [base pt rn f li ld ji jd l].
  unfold exit_cleanup, led_level. run_setters.
  assert (Hne : (base + GPCLR0_OFFSET =? base + GPSET0_OFFSET) = false)
    by (apply Z.eqb_neq; unfold GPCLR0_OFFSET, GPSET0_OFFSET; lia).
  destruct (base =? 0); cbv beta iota; cbn [led_writes];
    change (Z.testbit (Z.shiftl 1 GPIO_LED) GPIO_LED) with true; cbv iota;
    rewrite Hne, Z.eqb_refl; auto.
Qed.

Lemma step_unload_inv (base : Z) (before : bool) (a : action) (sys : system) :
  unload_inv base before sys -> unload_inv base before (step a sys).
Proof.
  destruct sys as [v l t ss u p]. unfold unload_inv. cbn [vars thread unload].
  intros (Hpt & Hrun & Hbase & Hjoin & Hled).
  destruct a as [smp|]; unfold step.
  - unfold worker_step. cbn [vars thread unload led_on should_stop passes].
    destruct t.
    + destruct (loop_cond ss v); cbn [vars thread unload]; intuition congruence.
    + destruct (loop_body_globals smp l v) as (A & B & C).
      destruct (loop_body smp (l, v)) as [l' v']. cbn [snd vars thread unload] in *.
      rewrite A, B, C. intuition congruence.
    + cbn [vars thread unload]. intuition congruence.
  - unfold unload_step. cbn [vars thread unload led_on should_stop passes].
    destruct u.
    + cbn [vars thread unload].
      replace (poll_thread (set_running false v)) with (poll_thread v)
        by (destruct v; reflexivity).
      replace (gpio_base (set_running false v)) with (gpio_base v)
        by (destruct v; reflexivity).
      replace (running (set_running false v)) with false
        by (destruct v; reflexivity).
      intuition congruence.
    + destruct (poll_thread v =? 0) eqn:E; [apply Z.eqb_eq in E; contradiction|].
      cbn [vars thread unload]. intuition congruence.
    + destruct t; cbn [vars thread unload]; intuition congruence.
    + destruct (exit_cleanup_spec v before) as (A & B & C).
      cbn [vars thread unload]. rewrite A, B.
      assert (Hb : gpio_base v = base) by (apply Hbase; discriminate).
      rewrite Hb in C.
      assert (Hr : running v = false) by (apply Hrun; discriminate).
      assert (Ht : t = ThreadReturned) by (apply Hjoin; left; reflexivity).
      intuition congruence.
    + cbn [vars thread unload]. intuition congruence.
Qed.

Lemma run_unload_inv (base : Z) (before : bool) (acts : list action) :
  forall sys : system,
    unload_inv base before sys -> unload_inv base before (run acts sys).
Proof.
  induction acts as [|a acts IH]; intros sys Hinv; [exact Hinv|].
  unfold run. simpl fold_left. apply IH. apply step_unload_inv. exact Hinv.
Qed.

Lemma loaded_unload_inv (s : state) (before : bool) :
  poll_thread s <> 0 -> unload_inv (gpio_base s) before (loaded s).
Proof.
  intros Hpt. unfold unload_inv, loaded. cbn [vars thread unload].
  repeat split; auto; try contradiction; try discriminate.
  intros [Hu | Hu]; discriminate.
Qed.

(** Once [running] is false it stays false, the worker starts no new pass,
    and each of its steps brings it closer to its return. *)
Lemma step_after_stop (a : action) (sys : system) :
  running (vars sys) = false ->
  running (vars (step a sys)) = false /\
  (passes (step a sys) + pending_passes (step a sys)
   = passes sys + pending_passes sys)%nat /\
  steps_to_return (step a sys)
  = (if is_worker a then Nat.pred (steps_to_return sys) else steps_to_return sys).
Proof.
  destruct sys as [v l t ss u p]. cbn [vars]. intros Hrun.
  unfold pending_passes, steps_to_return. destruct a as [smp|]; unfold step, is_worker.
  - unfold worker_step. cbn [vars thread unload led_on should_stop passes].
    destruct t.
    + unfold loop_cond. rewrite Hrun, andb_false_r. cbn [vars thread passes]. auto.
    + destruct (loop_body_globals smp l v) as (_ & _ & C).
      destruct (loop_body smp (l, v)) as [l' v']. cbn [snd vars thread passes] in *.
      rewrite C. repeat split; auto; lia.
    + cbn [vars thread passes]. auto.
  - unfold unload_step. cbn [vars thread unload led_on should_stop passes].
    destruct u.
    + cbn [vars thread passes]. destruct v; run_setters. auto.
    + destruct (poll_thread v =? 0); cbn [vars thread passes]; auto.
    + destruct t; cbn [vars thread passes]; auto.
    + destruct (exit_cleanup_spec v false) as (_ & B & _).
      cbn [vars thread passes]. rewrite B. auto.
    + cbn [vars thread passes]. auto.
Qed.

Lemma run_after_stop (acts : list action) :
  forall sys : system,
    running (vars sys) = false ->
    (passes (run acts sys) + pending_passes (run acts sys)
     = passes sys + pending_passes sys)%nat /\
    steps_to_return (run acts sys) = (steps_to_return sys - count_worker acts)%nat.
Proof.
  induction acts as [|a acts IH]; intros sys Hrun.
  - unfold count_worker. simpl. split; [reflexivity | lia].
  - destruct (step_after_stop a sys Hrun) as (A & B & C).
    destruct (IH (step a sys) A) as (D & E).
    unfold run in *. simpl fold_left. rewrite D, E, B, C.
    split; [reflexivity|].
    unfold count_worker. simpl filter. destruct (is_worker a); simpl List.length; lia.
Qed.

End Stopping.

Section StopRequest.
Context `{cfg : KernelConfig}.

(** C4 (amended).  Once a stop is requested ([two_button_exit] has written
    [running = false]), the worker completes at most one more pass of the
    loop body, none if it was not inside the body, and returns within two
    of its steps; leaving the loop writes nothing, so the loop function does
    not touch the output on its way out.  The output is forced unlit by
    [two_button_exit] after
    [kthread_stop] has returned, that is after the loop function has
    returned: the worker has returned when [kthread_stop] is over, and when
    [two_button_exit] is done the LED pin is unlit. *)
Theorem stop_request_ends_unlit :
  forall (s : state) (acts more : list action) (before : bool),
    poll_thread s <> 0 ->
    unload (run acts (loaded s)) <> ExitNotCalled ->
    let sys := run acts (loaded s) in
    (passes (run more sys) <= passes sys + 1)%nat /\
    (thread sys <> InLoopBody -> passes (run more sys) = passes sys) /\
    ((2 <= count_worker more)%nat -> thread (run more sys) = ThreadReturned) /\
    (forall (smp : sample) (sys0 : system),
        thread sys0 <> InLoopBody -> vars (step (Worker smp) sys0) = vars sys0) /\
    (unload (run more sys) = ExitJoined -> thread (run more sys) = ThreadReturned) /\
    (unload (run more sys) = ExitDone ->
     thread (run more sys) = ThreadReturned /\
     led_level (gpio_base s) before (log (vars (run more sys))) = false).
Proof.
  intros s acts more before Hpt Hreq sys.
  pose proof (run_unload_inv (gpio_base s) before acts (loaded s)
                (loaded_unload_inv s before Hpt)) as Hinv.
  fold sys in Hinv, Hreq.
  assert (Hrun : running (vars sys) = false).
  { destruct Hinv as (_ & H & _). apply H. exact Hreq. }
  destruct (run_after_stop more sys Hrun) as (Hpass & Hret).
  pose proof (run_unload_inv (gpio_base s) before more sys Hinv) as Hinv'.
  unfold pending_passes, steps_to_return in *.
  split; [|split; [|split; [|split; [|split]]]].
  - destruct (thread (run more sys)), (thread sys); lia.
  - intros Hbody. destruct (thread (run more sys)) eqn:E, (thread sys) eqn:E';
      try lia; try congruence.
  - intros Hcount. destruct (thread (run more sys)), (thread sys); try reflexivity; lia.
  - intros smp sys0 Hthread. unfold step, worker_step.
    destruct (thread sys0); [|congruence|reflexivity].
    destruct (loop_cond _ _); reflexivity.
  - intros Hjoined. destruct Hinv' as (_ & _ & _ & Hjoin & _). auto.
  - intros Hdone. destruct Hinv' as (_ & _ & _ & Hjoin & Hled). auto.
Qed.

End StopRequest.

(** One pass, a stop request, the worker's return, and the rest of
    [two_button_exit]; the pin is taken to be lit beforehand. *)
Lemma stop_request_ends_unlit_witness :
  poll_thread (vars loaded_ok) <> 0 /\
  unload (run (cfg := rpi_armv7) stop_after_one_pass (loaded (vars loaded_ok)))
    <> ExitNotCalled /\
  unload (run (cfg := rpi_armv7) [Unload; Unload; Unload]
            (run (cfg := rpi_armv7) stop_after_one_pass (loaded (vars loaded_ok))))
    = ExitDone /\
  led_level (gpio_base (vars loaded_ok)) true
    (log (vars (run (cfg := rpi_armv7) [Unload; Unload; Unload]
                  (run (cfg := rpi_armv7) stop_after_one_pass
                     (loaded (vars loaded_ok))))))
    = false.
Proof.
  assert (H1 : poll_thread (vars loaded_ok) <> 0) by (vm_compute; discriminate).
  assert (H2 : unload (run (cfg := rpi_armv7) stop_after_one_pass
                         (loaded (vars loaded_ok))) <> ExitNotCalled)
    by (vm_compute; discriminate).
  assert (H3 : unload (run (cfg := rpi_armv7) [Unload; Unload; Unload]
                         (run (cfg := rpi_armv7) stop_after_one_pass
                            (loaded (vars loaded_ok)))) = ExitDone)
    by (vm_compute; reflexivity).
  split; [exact H1|]. split; [exact H2|]. split; [exact H3|].
  exact (proj2 (proj2 (proj2 (proj2 (proj2 (proj2
           (stop_request_ends_unlit (cfg := rpi_armv7) (vars loaded_ok)
              stop_after_one_pass [Unload; Unload; Unload] true H1 H2)))))
           H3)).
Defined.

(** C4 as stated fails: the loop function does no cleanup of its own.  After
    one pass of the body and a stop request, the worker has returned, the
    only write the LED pin ever received is a set, and the pin is lit;
    [two_button_exit] has not yet reached its clear. *)
Lemma worker_returns_with_led_lit :
  thread (run (cfg := rpi_armv7) stop_after_one_pass loaded_ok) = ThreadReturned /\
  passes (run (cfg := rpi_armv7) stop_after_one_pass loaded_ok) = 1%nat /\
  unload (run (cfg := rpi_armv7) stop_after_one_pass loaded_ok) = ExitFlagWritten /\
  led_writes (gpio_base (vars loaded_ok))
    (log (vars (run (cfg := rpi_armv7) stop_after_one_pass loaded_ok))) = [true] /\
  led_level (gpio_base (vars loaded_ok)) false
    (log (vars (run (cfg := rpi_armv7) stop_after_one_pass loaded_ok))) = true.
Proof. vm_compute. repeat split. Qed.

(** ** Scenarios of the specification, run on the loop *)

(** From the initial state on the 32-bit kernel: the increment button is
    seen LOW at tick 0 and HIGH at tick 20 (200 ms); the frequency becomes 7
    and the second pass sleeps 71 ms. *)
Example scenario_short_increment :
  let t := iterations (cfg := rpi_armv7)
             [ {| lev_inc := 0x01000000; now_inc := 0;
                  lev_dec := 0x01000000; now_dec := 0 |};
               {| lev_inc := 0x01800000; now_inc := 20;
                  lev_dec := 0x01800000; now_dec := 20 |} ]
             (false, initial_state) in
  blink_freq (snd t) = 7 /\ hd (Msleep 0) (log (snd t)) = Msleep 71.
Proof. vm_compute. split; reflexivity. Qed.

(** At frequency 1, a short press of the decrement button leaves 1. *)
Example scenario_decrement_at_floor :
  blink_freq (press_release (cfg := rpi_armv7) BTN_DEC 0 [] 10
                (set_blink_freq 1 initial_state)) = 1.
Proof. reflexivity. Qed.

(** A press held for 150 ticks (1500 ms) changes nothing. *)
Example scenario_long_press :
  blink_freq (press_release (cfg := rpi_armv7) BTN_INC 0 [50; 100] 150
                initial_state) = 2.
Proof. reflexivity. Qed.

(** * Further properties of the driver *)

(** ** Reading a pin *)




(** ** The function-select fields *)

(** X2.  The function-select field of a pin is three bits wide and starts
    at a multiple of 3 no higher than 27, so it lies within the 32-bit
    register; the fields of two pins with different last digits do not
    overlap. *)
Theorem fsel_fields_are_disjoint :
  forall p q : Z,
    0 <= p -> 0 <= q ->
    GPIO_FSEL_SHIFT p = 3 * (p mod 10) /\
    0 <= GPIO_FSEL_SHIFT p /\ GPIO_FSEL_SHIFT p + 3 <= 30 /\
    (p mod 10 <> q mod 10 ->
     GPIO_FSEL_SHIFT p + 3 <= GPIO_FSEL_SHIFT q \/
     GPIO_FSEL_SHIFT q + 3 <= GPIO_FSEL_SHIFT p).
Proof.
  intros p q Hp Hq. unfold GPIO_FSEL_SHIFT.
  rewrite !Z.rem_mod_nonneg by lia.
  pose proof (Z.mod_pos_bound p 10 ltac:(lia)).
  pose proof (Z.mod_pos_bound q 10 ltac:(lia)).
  repeat split; try lia.
Qed.

(** The LED and the increment button: fields at bits 24 and 9. *)
Lemma fsel_fields_are_disjoint_witness :
  0 <= GPIO_LED /\ 0 <= GPIO_BTN_INC /\
  GPIO_FSEL_SHIFT GPIO_LED = 24 /\ GPIO_FSEL_SHIFT GPIO_BTN_INC = 9.
Proof.
  assert (Hp : 0 <= GPIO_LED) by discriminate.
  assert (Hq : 0 <= GPIO_BTN_INC) by discriminate.
  split; [exact Hp|]. split; [exact Hq|]. split.
  - rewrite (proj1 (fsel_fields_are_disjoint GPIO_LED GPIO_BTN_INC Hp Hq)). reflexivity.
  - rewrite (proj1 (fsel_fields_are_disjoint GPIO_BTN_INC GPIO_LED Hq Hp)). reflexivity.
Defined.

(** ** The half-period as a function of the frequency *)

(** X3.  From frequency 1 up, a higher frequency never gives a longer
    half-period, and the two truncations lose less than two periods per
    second: [1000 - 2 f < 2 * f * half_period f <= 1000]. *)
Theorem half_period_decreases :
  forall f g : Z,
    1 <= f -> f <= g ->
    half_period g <= half_period f /\
    1000 - 2 * f < 2 * f * half_period f <= 1000.
Proof.
  intros f g Hf Hg.
  destruct (half_period_floor_division f Hf) as (-> & _).
  destruct (half_period_floor_division g ltac:(lia)) as (-> & _).
  split.
  - apply Z.div_le_mono; [lia|]. apply Z.div_le_compat_l; lia.
  - pose proof (Z.div_mod 1000 f ltac:(lia)) as H1.
    pose proof (Z.mod_pos_bound 1000 f ltac:(lia)) as H2.
    pose proof (Z.div_mod (1000 / f) 2 ltac:(lia)) as H3.
    pose proof (Z.mod_pos_bound (1000 / f) 2 ltac:(lia)) as H4.
    nia.
Qed.

(** Frequencies 2 and 7: half-periods 250 and 71. *)
Lemma half_period_decreases_witness :
  1 <= 2 /\ 2 <= 7 /\ half_period 7 <= half_period 2.
Proof.
  assert (H1 : 1 <= 2) by lia. assert (H2 : 2 <= 7) by lia.
  split; [exact H1|]. split; [exact H2|].
  exact (proj1 (half_period_decreases 2 7 H1 H2)).
Defined.

(** ** The pin configuration written at load time *)

Lemma testbit_field (w sh i : Z) :
  0 <= w -> 0 <= sh -> 0 <= i ->
  Z.testbit (Z.shiftl (Z.ones w) sh) i = (sh <=? i) && (i <? sh + w).
Proof.
  intros Hw Hsh Hi. rewrite Z.shiftl_spec by exact Hi.
  destruct (sh <=? i) eqn:E; [apply Z.leb_le in E | apply Z.leb_gt in E].
  - rewrite Z.testbit_ones by exact Hw.
    replace (0 <=? i - sh) with true by (symmetry; apply Z.leb_le; lia).
    simpl. destruct (i <? sh + w) eqn:E'; [apply Z.ltb_lt in E' | apply Z.ltb_ge in E'].
    + apply Z.ltb_lt. lia.
    + apply Z.ltb_ge. lia.
  - simpl. apply Z.testbit_neg_r. lia.
Qed.

Lemma testbit_above_32 (v i : Z) :
  0 <= v < 2 ^ 32 -> 32 <= i -> Z.testbit v i = false.
Proof.
  intros Hv Hi. destruct (Z.eq_dec v 0) as [-> | Hnz]; [apply Z.bits_0|].
  apply Z.bits_above_log2; [lia|].
  assert (Z.log2 v < 32) by (apply Z.log2_lt_pow2; lia). lia.
Qed.

(** Clearing a three-bit field of a 32-bit register value. *)
Lemma testbit_clear_field (v sh i : Z) :
  0 <= v < 2 ^ 32 -> 0 <= sh -> 0 <= i ->
  Z.testbit (Z.land v (not32 (Z.shiftl 0x7 sh))) i
  = Z.testbit v i && negb ((sh <=? i) && (i <? sh + 3)).
Proof.
  intros Hv Hsh Hi. unfold not32.
  change 0x7 with (Z.ones 3). change 0xFFFFFFFF with (Z.ones 32).
  rewrite Z.land_spec, Z.lxor_spec, testbit_field, Z.testbit_ones by lia.
  replace (0 <=? i) with true by (symmetry; apply Z.leb_le; exact Hi).
  destruct (i <? 32) eqn:E; [apply Z.ltb_lt in E | apply Z.ltb_ge in E]; simpl.
  - rewrite xorb_true_r. reflexivity.
  - rewrite (testbit_above_32 v i Hv E). reflexivity.
Qed.

Lemma land_range (v m : Z) : 0 <= v < 2 ^ 32 -> 0 <= Z.land v m < 2 ^ 32.
Proof.
  intros Hv.
  assert (H : Z.land (Z.land v m) (Z.ones 32) = Z.land v m).
  { apply Z.bits_inj'. intros i Hi.
    rewrite !Z.land_spec, Z.testbit_ones by lia.
    replace (0 <=? i) with true by (symmetry; apply Z.leb_le; exact Hi).
    destruct (i <? 32) eqn:E; [apply Z.ltb_lt in E | apply Z.ltb_ge in E]; simpl.
    - apply andb_true_r.
    - rewrite (testbit_above_32 v i Hv E). reflexivity. }
  rewrite Z.land_ones in H by lia. rewrite <- H.
  apply Z.mod_pos_bound. lia.
Qed.

Section PinConfiguration.
Context `{cfg : KernelConfig}.

(** X4.  [two_button_init] makes GPIO18 an output with one write to the
    function-select register 1: of the 32-bit value read, the field of pin
    18 (bits 24 to 26) becomes 001 and every other bit, hence the mode of
    every other pin, is written back as read.  Nothing else changes. *)
Theorem configure_led_touches_only_pin_18 :
  forall (env : init_env) (s : state),
    0 <= gpfsel1_read env < 2 ^ 32 ->
    exists val : Z,
      configure_led env s = emit (Iowrite32 val (gpio_base s + GPFSEL1_OFFSET)) s /\
      0 <= val < 2 ^ 32 /\
      forall i : Z,
        0 <= i ->
        Z.testbit val i
        = if (24 <=? i) && (i <? 27) then i =? 24
          else Z.testbit (gpfsel1_read env) i.
Proof.
  intros env s Hv. eexists. split; [reflexivity|].
  change (GPIO_FSEL_SHIFT GPIO_LED) with 24.
  set (cleared := Z.land _ (not32 _)).
  assert (Hc : 0 <= cleared < 2 ^ 32) by (apply land_range; exact Hv).
  split.
  - change (Z.shiftl 1 24) with (2 ^ 24).
    assert (H : Z.lor cleared (2 ^ 24) = Z.land (Z.lor cleared (2 ^ 24)) (Z.ones 32)).
    { apply Z.bits_inj'. intros i Hi.
      rewrite Z.land_spec, Z.lor_spec, Z.testbit_ones, Z.pow2_bits_eqb by lia.
      replace (0 <=? i) with true by (symmetry; apply Z.leb_le; exact Hi).
      destruct (i <? 32) eqn:E; [apply Z.ltb_lt in E | apply Z.ltb_ge in E];
        cbn [andb].
      - rewrite andb_true_r. reflexivity.
      - rewrite (testbit_above_32 cleared i Hc E), andb_false_r.
        replace (24 =? i) with false by (symmetry; apply Z.eqb_neq; lia).
        reflexivity. }
    rewrite H, Z.land_ones by lia. apply Z.mod_pos_bound. lia.
  - intros i Hi. subst cleared.
    rewrite Z.lor_spec, testbit_clear_field by lia.
    change (Z.shiftl 1 24) with (2 ^ 24). rewrite Z.pow2_bits_eqb by lia.
    change (24 + 3) with 27. rewrite (Z.eqb_sym 24 i).
    destruct ((24 <=? i) && (i <? 27)) eqn:E; cbn [negb].
    + rewrite andb_false_r. reflexivity.
    + rewrite andb_true_r.
      replace (i =? 24) with false; [apply orb_false_r|].
      symmetry. apply Z.eqb_neq. intros ->. discriminate.
Qed.

(** X5.  [two_button_init] makes GPIO23 and GPIO24 inputs with one write
    to the function-select register 2 that clears bits 9 to 14 and writes
    every other bit back as read; the pull-up sequence that follows (control
    2, 150 ns, clock, 150 ns, control 0, clock 0) clocks exactly the pins 23
    and 24. *)
Theorem configure_buttons_touches_only_pins_23_24 :
  forall (env : init_env) (s : state),
    0 <= gpfsel2_read env < 2 ^ 32 ->
    exists val mask : Z,
      log (configure_buttons env s)
      = [ Iowrite32 0 (gpio_base s + GPPUDCLK0_OFFSET);
          Iowrite32 0 (gpio_base s + GPPUD_OFFSET);
          Ndelay 150;
          Iowrite32 mask (gpio_base s + GPPUDCLK0_OFFSET);
          Ndelay 150;
          Iowrite32 2 (gpio_base s + GPPUD_OFFSET);
          Iowrite32 val (gpio_base s + GPFSEL2_OFFSET) ] ++ log s /\
      0 <= val < 2 ^ 32 /\
      (forall i : Z,
          0 <= i ->
          Z.testbit val i
          = if (9 <=? i) && (i <? 15) then false
            else Z.testbit (gpfsel2_read env) i) /\
      (forall i : Z,
          0 <= i ->
          Z.testbit mask i = (i =? GPIO_BTN_INC) || (i =? GPIO_BTN_DEC)).
Proof.
  intros env s Hv. eexists. eexists. split.
  { destruct s. unfold configure_buttons. run_setters. reflexivity. }
  change (GPIO_FSEL_SHIFT GPIO_BTN_INC) with 9.
  change (GPIO_FSEL_SHIFT GPIO_BTN_DEC) with 12.
  set (first := Z.land (gpfsel2_read env) (not32 (Z.shiftl 7 9))).
  assert (Hf : 0 <= first < 2 ^ 32) by (apply land_range; exact Hv).
  split; [apply land_range; exact Hf|]. split.
  - intros i Hi. rewrite testbit_clear_field by lia.
    subst first. rewrite testbit_clear_field by lia.
    change (9 + 3) with 12. change (12 + 3) with 15.
    destruct (9 <=? i) eqn:E1; destruct (i <? 12) eqn:E2;
      destruct (12 <=? i) eqn:E3; destruct (i <? 15) eqn:E4; cbn [andb negb];
      rewrite ?andb_true_r, ?andb_false_r; try reflexivity;
      apply Z.leb_gt in E3 || apply Z.leb_le in E3;
      apply Z.ltb_ge in E2 || apply Z.ltb_lt in E2;
      apply Z.leb_gt in E1 || apply Z.leb_le in E1;
      apply Z.ltb_ge in E4 || apply Z.ltb_lt in E4; lia.
  - intros i Hi. rewrite Z.lor_spec, !Z.shiftl_1_l.
    rewrite !Z.pow2_bits_eqb by discriminate.
    rewrite (Z.eqb_sym GPIO_BTN_INC i), (Z.eqb_sym GPIO_BTN_DEC i). reflexivity.
Qed.

End PinConfiguration.

(** All three pins of GPFSEL1 that the register showed as alternate
    function 0 (binary 100) stay so, except pin 18. *)
Lemma configure_led_touches_only_pin_18_witness :
  0 <= 0x04924924 < 2 ^ 32 /\
  exists val : Z,
    configure_led (mkInitEnv 0xF3200000 0x04924924 0 0xC1234000) initial_state
    = emit (Iowrite32 val (0 + GPFSEL1_OFFSET)) initial_state /\
    0 <= val < 2 ^ 32.
Proof.
  assert (Hv : 0 <= gpfsel1_read (mkInitEnv 0xF3200000 0x04924924 0 0xC1234000) < 2 ^ 32)
    by (split; [discriminate | reflexivity]).
  split; [exact Hv|].
  destruct (configure_led_touches_only_pin_18
              (mkInitEnv 0xF3200000 0x04924924 0 0xC1234000) initial_state Hv)
    as (val & Heq & Hrange & _).
  exists val. split; [exact Heq | exact Hrange].
Defined.

Lemma configure_buttons_touches_only_pins_23_24_witness :
  0 <= 0x00249249 < 2 ^ 32 /\
  exists val mask : Z,
    hd (Msleep 0)
       (log (configure_buttons (mkInitEnv 0xF3200000 0 0x00249249 0xC1234000)
               initial_state))
    = Iowrite32 0 (0 + GPPUDCLK0_OFFSET) /\
    0 <= val < 2 ^ 32 /\ Z.testbit mask 23 = true.
Proof.
  assert (Hv : 0 <= gpfsel2_read (mkInitEnv 0xF3200000 0 0x00249249 0xC1234000) < 2 ^ 32)
    by (split; [discriminate | reflexivity]).
  split; [exact Hv|].
  destruct (configure_buttons_touches_only_pins_23_24
              (mkInitEnv 0xF3200000 0 0x00249249 0xC1234000) initial_state Hv)
    as (val & mask & Hlog & Hrange & _ & Hmask).
  exists val, mask. split; [rewrite Hlog; reflexivity|].
  split; [exact Hrange|]. rewrite Hmask by discriminate. reflexivity.
Defined.

(** ** The outcomes of [two_button_init] *)

Section InitOutcomes.
Context `{cfg : KernelConfig}.

(** The path of [two_button_init] on which [ioremap] returned NULL. *)
Lemma two_button_init_unmapped :
  forall (env : init_env) (s : state),
    ioremap_result env = 0 -> fst (two_button_init env s) = -12.
Proof.
  intros env s Hfail. unfold two_button_init.
  replace (gpio_base _ =? 0) with true; [reflexivity|].
  symmetry. apply Z.eqb_eq. destruct s. run_setters. exact Hfail.
Qed.

(** X6.  When [ioremap] fails, [two_button_init] returns [-ENOMEM] at once:
    it writes no register, starts no worker, holds no new mapping, and of
    the module's variables only [gpio_base] is written (with NULL). *)
Theorem ioremap_failure_aborts_init :
  forall (env : init_env) (s : state),
    ioremap_result env = 0 ->
    let s' := snd (two_button_init env s) in
    fst (two_button_init env s) = -12 /\
    register_writes (log s') = register_writes (log s) /\
    worker_started (log s') = worker_started (log s) /\
    mappings_held (log s') = mappings_held (log s) /\
    hd (Msleep 0) (log s') = PrErr "Failed to ioremap" /\
    s' = set_gpio_base 0 (mkState (gpio_base s) (poll_thread s) (running s)
                            (blink_freq s) (last_inc_state s) (last_dec_state s)
                            (inc_press_jiffies s) (dec_press_jiffies s) (log s')).
Proof.
  intros env s Hfail. destruct s. cbv zeta.
  unfold two_button_init, configure_buttons, configure_led. run_setters.
  rewrite Hfail. change (0 =? 0) with true. cbv beta iota. unfold set_gpio_base.
  cbn [register_writes worker_started mappings_held gpio_base poll_thread running
       blink_freq last_inc_state last_dec_state inc_press_jiffies
       dec_press_jiffies log hd].
  change (0 =? 0) with true. cbv iota. repeat split.
Qed.

(** The path of [two_button_init] on which everything succeeded. *)
Lemma two_button_init_loaded :
  forall (env : init_env) (s : state),
    ioremap_result env <> 0 ->
    IS_ERR (kthread_run_result env) = false ->
    let s' := snd (two_button_init env s) in
    fst (two_button_init env s) = 0 /\
    gpio_base s' = ioremap_result env /\
    poll_thread s' = kthread_run_result env /\
    mappings_held (log s') = ioremap_result env :: mappings_held (log s).
Proof.
  intros env s Hmap Hok.
  assert (Hnz : (ioremap_result env =? 0) = false) by (apply Z.eqb_neq; exact Hmap).
  destruct s. cbv zeta.
  unfold two_button_init, configure_buttons, configure_led. run_setters.
  rewrite Hnz, Hok. cbv beta iota. cbn [mappings_held]. rewrite Hnz.
  repeat split.
Qed.

(** X7.  When [ioremap] and [kthread_run] both succeed, [two_button_init]
    returns 0 with the block recorded in [gpio_base], the worker recorded
    in [poll_thread] and [running] set; the one new mapping is held, the
    worker is started only after the last register write, and each of the
    six register writes lies within the [GPIO_LEN] bytes mapped. *)
Theorem init_success_state :
  forall (env : init_env) (s : state),
    ioremap_result env <> 0 ->
    IS_ERR (kthread_run_result env) = false ->
    let s' := snd (two_button_init env s) in
    fst (two_button_init env s) = 0 /\
    gpio_base s' = ioremap_result env /\
    poll_thread s' = kthread_run_result env /\
    running s' = true /\
    mappings_held (log s') = ioremap_result env :: mappings_held (log s) /\
    worker_started (log s') = true /\
    (exists writes : list (Z * Z),
        register_writes (log s') = writes ++ register_writes (log s) /\
        List.length writes = 6%nat /\
        Forall (fun w => in_block (ioremap_result env) (snd w)) writes) /\
    (exists before : list event,
        log s' = PrInfo "two_button_blink: loaded (freq=%d). Press buttons on GPIO23/24."
                        (Some (blink_freq s))
                 :: KthreadRun (kthread_run_result env) :: before /\
        worker_started before = worker_started (log s) /\
        register_writes before = register_writes (log s')).
Proof.
  intros env s Hmap Hok.
  assert (Hnz : (ioremap_result env =? 0) = false) by (apply Z.eqb_neq; exact Hmap).
  destruct s. cbv zeta.
  unfold two_button_init, configure_buttons, configure_led. run_setters.
  rewrite Hnz, Hok. cbv beta iota.
  cbn [register_writes worker_started mappings_held].
  rewrite Hnz, Hok. cbn [negb orb].
  split; [reflexivity|]. split; [reflexivity|]. split; [reflexivity|].
  split; [reflexivity|]. split; [reflexivity|]. split; [reflexivity|].
  split.
  - eexists. split.
    + repeat rewrite app_comm_cons. rewrite <- (app_nil_l (register_writes log0)) at 1.
      repeat rewrite app_comm_cons. reflexivity.
    + split; [reflexivity|].
      repeat constructor; cbn [snd]; unfold GPIO_LEN, GPPUDCLK0_OFFSET, GPPUD_OFFSET,
        GPFSEL2_OFFSET, GPFSEL1_OFFSET; lia.
  - eexists. split; [reflexivity|]. cbn [register_writes worker_started].
    split; reflexivity.
Qed.

(** X8.  On a 32-bit or 64-bit kernel [two_button_init] returns 0 exactly
    when [ioremap] and [kthread_run] both succeeded, and otherwise a
    negative error number between -4095 and -1. *)
Theorem init_return_code :
  forall (env : init_env) (s : state),
    BITS_PER_LONG = 32 \/ BITS_PER_LONG = 64 ->
    0 <= kthread_run_result env < 2 ^ BITS_PER_LONG ->
    let ret := fst (two_button_init env s) in
    (ret = 0 <->
     ioremap_result env <> 0 /\ IS_ERR (kthread_run_result env) = false) /\
    (ret = 0 \/ - MAX_ERRNO <= ret <= -1).
Proof.
  intros env s Hbits Hptr. cbv zeta.
  destruct (Z.eq_dec (ioremap_result env) 0) as [Hfail | Hmap].
  - rewrite (two_button_init_unmapped env s Hfail).
    unfold MAX_ERRNO. split; [|right; lia].
    split; [discriminate | intros (Hne & _); contradiction].
  - destruct (IS_ERR (kthread_run_result env)) eqn:Herr.
    + destruct (PTR_ERR_of_error _ Hbits Hptr Herr) as (Hcode & Hneg).
      assert (Hret : fst (two_button_init env s) = PTR_ERR (kthread_run_result env)).
      { assert (Hnz : (ioremap_result env =? 0) = false)
          by (apply Z.eqb_neq; exact Hmap).
        destruct s. unfold two_button_init, configure_buttons, configure_led.
        run_setters. rewrite Hnz, Herr. reflexivity. }
      rewrite Hret. split; [|right; lia].
      split; [intros H0; lia | intros (_ & Hno); discriminate].
    + destruct (two_button_init_loaded env s Hmap Herr) as (-> & _).
      split; [|left; reflexivity].
      split; [intros _; split; [exact Hmap | reflexivity] | reflexivity].
Qed.

End InitOutcomes.

(** [ioremap] returns NULL on the 32-bit kernel. *)
Lemma ioremap_failure_aborts_init_witness :
  ioremap_result (mkInitEnv 0 0 0 0xC1234000) = 0 /\
  fst (two_button_init (cfg := rpi_armv7) (mkInitEnv 0 0 0 0xC1234000) initial_state)
    = -12 /\
  register_writes
    (log (snd (two_button_init (cfg := rpi_armv7) (mkInitEnv 0 0 0 0xC1234000)
                 initial_state))) = [].
Proof.
  assert (H : ioremap_result (mkInitEnv 0 0 0 0xC1234000) = 0) by reflexivity.
  split; [exact H|].
  destruct (ioremap_failure_aborts_init (cfg := rpi_armv7)
              (mkInitEnv 0 0 0 0xC1234000) initial_state H) as (A & B & _).
  split; [exact A | exact B].
Defined.

(** The module loaded by [env_ok]. *)
Lemma init_success_state_witness :
  ioremap_result env_ok <> 0 /\
  IS_ERR (cfg := rpi_armv7) (kthread_run_result env_ok) = false /\
  fst (two_button_init (cfg := rpi_armv7) env_ok initial_state) = 0 /\
  mappings_held (log (snd (two_button_init (cfg := rpi_armv7) env_ok initial_state)))
    = [0xF3200000].
Proof.
  assert (H1 : ioremap_result env_ok <> 0) by discriminate.
  assert (H2 : IS_ERR (cfg := rpi_armv7) (kthread_run_result env_ok) = false)
    by reflexivity.
  split; [exact H1|]. split; [exact H2|].
  destruct (init_success_state (cfg := rpi_armv7) env_ok initial_state H1 H2)
    as (A & _ & _ & _ & B & _).
  split; [exact A | exact B].
Defined.

(** [kthread_run] fails with [-ENOMEM]: the code returned is -12. *)
Lemma init_return_code_witness :
  (@BITS_PER_LONG rpi_armv7 = 32 \/ @BITS_PER_LONG rpi_armv7 = 64) /\
  0 <= kthread_run_result env_no_worker < 2 ^ @BITS_PER_LONG rpi_armv7 /\
  (fst (two_button_init (cfg := rpi_armv7) env_no_worker initial_state) = 0 \/
   - MAX_ERRNO <= fst (two_button_init (cfg := rpi_armv7) env_no_worker initial_state)
     <= -1).
Proof.
  assert (H1 : @BITS_PER_LONG rpi_armv7 = 32 \/ @BITS_PER_LONG rpi_armv7 = 64)
    by (left; reflexivity).
  assert (H2 : 0 <= kthread_run_result env_no_worker < 2 ^ @BITS_PER_LONG rpi_armv7)
    by (split; [discriminate | reflexivity]).
  split; [exact H1|]. split; [exact H2|].
  exact (proj2 (init_return_code (cfg := rpi_armv7) env_no_worker initial_state H1 H2)).
Defined.

(** ** What one sample can change *)

Section SampleEffects.
Context `{cfg : KernelConfig}.

(** Both blocks, described uniformly. *)
Lemma check_spec (b : button) (curr now : Z) (s : state) :
  let s' := check b curr now s in
  blink_freq s'
  = (if accepted b curr now s then
       match b with
       | BTN_INC => CInt.wrap (blink_freq s + 5)
       | BTN_DEC => Z.max (CInt.wrap (blink_freq s - 5)) 1
       end
     else blink_freq s) /\
  log s'
  = (if accepted b curr now s
     then PrInfo (press_message b) (Some (blink_freq s')) :: log s
     else log s) /\
  press_jiffies b s'
  = (if press_seen b curr s then now else press_jiffies b s).
Proof.
  cbv zeta. unfold accepted, press_seen, held.
  destruct b; unfold_checks; unfold press_message.
  - destruct (curr =? last_inc_state s); [simpl; auto|].
    destruct (curr =? 0); [simpl; auto|]. cbn [negb andb].
    destruct (wrap_ulong (now - inc_press_jiffies s) <? HZ); simpl; auto.
  - destruct (curr =? last_dec_state s); [simpl; auto|].
    destruct (curr =? 0); [simpl; auto|]. cbn [negb andb].
    destruct (wrap_ulong (now - dec_press_jiffies s) <? HZ); [|simpl; auto].
    destruct (CInt.wrap (blink_freq s - 5) <? 1) eqn:E; simpl; rewrite E; simpl;
      [apply Z.ltb_lt in E | apply Z.ltb_ge in E];
      (split; [lia|]); split; try reflexivity;
      (replace (Z.max (CInt.wrap (blink_freq s - 5)) 1) with 1 by lia) || idtac;
      reflexivity.
Qed.

(** X9.  A sample adds at most one line to the log, and every change of the
    frequency is logged with the frequency now stored: a sample that is not
    an accepted release changes neither the frequency nor the log, and an
    accepted one logs the stored value even when the floor left it
    unchanged. *)
Theorem frequency_changes_are_logged :
  forall (b : button) (curr now : Z) (s : state),
    let s' := check b curr now s in
    (accepted b curr now s = false ->
     log s' = log s /\ blink_freq s' = blink_freq s) /\
    (accepted b curr now s = true ->
     log s' = PrInfo (press_message b) (Some (blink_freq s')) :: log s) /\
    (blink_freq s' <> blink_freq s ->
     hd (Msleep 0) (log s') = PrInfo (press_message b) (Some (blink_freq s'))).
Proof.
  intros b curr now s. cbv zeta.
  destruct (check_spec b curr now s) as (Hf & Hl & _).
  destruct (accepted b curr now s).
  - split; [discriminate|]. split; [intros _; exact Hl|].
    intros _. rewrite Hl. reflexivity.
  - split; [auto|]. split; [discriminate|]. intros Hne. contradiction.
Qed.

(** X10.  The press timestamp of a button is written only by a sample that
    reads LOW after a different level, and then with the current [jiffies];
    the frequency is touched only by a sample that reads a level other than
    LOW, differs from the stored level and ends a press measured shorter
    than [HZ] ticks. *)
Theorem changes_need_a_transition :
  forall (b : button) (curr now : Z) (s : state),
    let s' := check b curr now s in
    (press_jiffies b s' <> press_jiffies b s ->
     curr = 0 /\ last_state b s <> 0 /\ press_jiffies b s' = now) /\
    (blink_freq s' <> blink_freq s ->
     curr <> 0 /\ curr <> last_state b s /\ held (press_jiffies b s) now < HZ).
Proof.
  intros b curr now s. cbv zeta.
  destruct (check_spec b curr now s) as (Hf & _ & Hj).
  unfold accepted, press_seen in *. split.
  - intros Hne.
    destruct (curr =? last_state b s) eqn:E1; [cbn [negb andb] in Hj; congruence|].
    destruct (curr =? 0) eqn:E2; [|cbn [negb andb] in Hj; congruence].
    apply Z.eqb_eq in E2. apply Z.eqb_neq in E1. subst curr.
    cbn [negb andb] in Hj. auto.
  - intros Hne.
    destruct (curr =? last_state b s) eqn:E1; [cbn [negb andb] in Hf; congruence|].
    destruct (curr =? 0) eqn:E2; [cbn [negb andb] in Hf; congruence|].
    destruct (held (press_jiffies b s) now <? HZ) eqn:E3;
      [|cbn [negb andb] in Hf; congruence].
    apply Z.eqb_neq in E1, E2. apply Z.ltb_lt in E3. auto.
Qed.

End SampleEffects.

(** A release accepted on each button, and a press that ends in a long hold. *)
Lemma frequency_changes_are_logged_witness :
  accepted (cfg := rpi_armv7) BTN_DEC 1 30 (set_last_dec_state 0 initial_state) = true /\
  log (check (cfg := rpi_armv7) BTN_DEC 1 30 (set_last_dec_state 0 initial_state))
    = [PrInfo "Decrement button pressed: freq => %d" (Some 1)] /\
  accepted (cfg := rpi_armv7) BTN_INC 1 130 (set_last_inc_state 0 initial_state) = false /\
  log (check (cfg := rpi_armv7) BTN_INC 1 130 (set_last_inc_state 0 initial_state)) = [].
Proof.
  assert (H1 : accepted (cfg := rpi_armv7) BTN_DEC 1 30
                 (set_last_dec_state 0 initial_state) = true) by reflexivity.
  assert (H2 : accepted (cfg := rpi_armv7) BTN_INC 1 130
                 (set_last_inc_state 0 initial_state) = false) by reflexivity.
  split; [exact H1|]. split.
  - rewrite (proj1 (proj2 (frequency_changes_are_logged (cfg := rpi_armv7) BTN_DEC 1 30
                             (set_last_dec_state 0 initial_state))) H1).
    reflexivity.
  - split; [exact H2|].
    exact (proj1 (proj1 (frequency_changes_are_logged (cfg := rpi_armv7) BTN_INC 1 130
                           (set_last_inc_state 0 initial_state)) H2)).
Defined.

(** The increment button goes down at tick 42. *)
Lemma changes_need_a_transition_witness :
  press_jiffies BTN_INC (check (cfg := rpi_armv7) BTN_INC 0 42 initial_state)
    <> press_jiffies BTN_INC initial_state /\
  last_state BTN_INC initial_state <> 0 /\
  press_jiffies BTN_INC (check (cfg := rpi_armv7) BTN_INC 0 42 initial_state) = 42.
Proof.
  assert (H : press_jiffies BTN_INC (check (cfg := rpi_armv7) BTN_INC 0 42 initial_state)
              <> press_jiffies BTN_INC initial_state) by discriminate.
  split; [exact H|].
  exact (proj2 (proj1 (changes_need_a_transition (cfg := rpi_armv7) BTN_INC 0 42
                         initial_state) H)).
Defined.

(** ** What one pass of the loop body can do *)

Lemma wrap_cases (z : Z) :
  (CInt.INT_MAX < z <= CInt.INT_MAX + 2 ^ 32 -> CInt.wrap z = z - 2 ^ 32) /\
  (CInt.INT_MIN - 2 ^ 32 <= z < CInt.INT_MIN -> CInt.wrap z = z + 2 ^ 32).
Proof.
  unfold CInt.wrap, CInt.INT_MAX, CInt.INT_MIN.
  change (2 ^ 31) with 2147483648. change (2 ^ 32) with 4294967296.
  split; intros H.
  - replace (z + 2147483648) with (z - 4294967296 + 2147483648 + 1 * 4294967296) by lia.
    rewrite Z.mod_add, Z.mod_small by lia. lia.
  - replace (z + 2147483648) with (z + 4294967296 + 2147483648 + (-1) * 4294967296) by lia.
    rewrite Z.mod_add, Z.mod_small by lia. lia.
Qed.

Section PassEffects.
Context `{cfg : KernelConfig}.

Lemma accepted_after_increment (curr now c n : Z) (s : state) :
  accepted BTN_DEC curr now (check_increment c n s) = accepted BTN_DEC curr now s.
Proof.
  unfold accepted, last_state, press_jiffies.
  destruct (check_increment_frame c n s) as (-> & -> & _). reflexivity.
Qed.

(** The frequency a pass ends with, from the decisions of its two blocks. *)
Lemma loop_body_freq (smp : sample) (led : bool) (s : state) :
  let f1 := if accepted BTN_INC (gpio_read_pin GPIO_BTN_INC (lev_inc smp))
                        (now_inc smp) s
            then CInt.wrap (blink_freq s + 5) else blink_freq s in
  let f2 := if accepted BTN_DEC (gpio_read_pin GPIO_BTN_DEC (lev_dec smp))
                        (now_dec smp) s
            then Z.max (CInt.wrap (f1 - 5)) 1 else f1 in
  blink_freq (snd (loop_body smp (led, s))) = Z.max f2 1.
Proof.
  cbv zeta. destruct (loop_body_sleep smp led s) as (-> & _).
  set (ci := gpio_read_pin GPIO_BTN_INC _). set (cd := gpio_read_pin GPIO_BTN_DEC _).
  destruct (check_spec BTN_DEC cd (now_dec smp) (check_increment ci (now_inc smp) s))
    as (Hd & _).
  destruct (check_spec BTN_INC ci (now_inc smp) s) as (Hi & _).
  cbn [check] in Hd, Hi. rewrite Hd, accepted_after_increment, Hi. reflexivity.
Qed.

(** The log a pass leaves: the messages of the two blocks, the write to the
    LED, the sleep. *)
Lemma loop_body_log (smp : sample) (led : bool) (s : state) :
  exists msgs : list event,
    log (snd (loop_body smp (led, s)))
    = Msleep (half_period (blink_freq (snd (loop_body smp (led, s)))))
      :: Iowrite32 (Z.shiftl 1 GPIO_LED)
           (gpio_base s + (if led then GPCLR0_OFFSET else GPSET0_OFFSET))
      :: msgs ++ log s /\
    Forall (fun e => exists fmt arg, e = PrInfo fmt arg) msgs /\
    (List.length msgs
     = (if accepted BTN_DEC (gpio_read_pin GPIO_BTN_DEC (lev_dec smp)) (now_dec smp) s
        then 1 else 0)
       + (if accepted BTN_INC (gpio_read_pin GPIO_BTN_INC (lev_inc smp)) (now_inc smp) s
          then 1 else 0))%nat.
Proof.
  destruct (loop_body_sleep smp led s) as (_ & ->).
  set (ci := gpio_read_pin GPIO_BTN_INC _). set (cd := gpio_read_pin GPIO_BTN_DEC _).
  set (s1 := check_increment ci (now_inc smp) s).
  set (s2 := check_decrement cd (now_dec smp) s1).
  assert (Hbase : gpio_base s2 = gpio_base s).
  { subst s2. destruct (check_decrement_frame cd (now_dec smp) s1) as (_ & _ & -> & _).
    subst s1. destruct (check_increment_frame ci (now_inc smp) s) as (_ & _ & -> & _).
    reflexivity. }
  destruct (check_spec BTN_DEC cd (now_dec smp) s1) as (_ & Hd & _).
  destruct (check_spec BTN_INC ci (now_inc smp) s) as (_ & Hi & _).
  cbn [check] in Hd, Hi. fold s1 in Hi. fold s2 in Hd.
  unfold s1 in Hd at 1. rewrite accepted_after_increment in Hd.
  exists ((if accepted BTN_DEC cd (now_dec smp) s
           then [PrInfo (press_message BTN_DEC) (Some (blink_freq s2))] else [])
          ++ (if accepted BTN_INC ci (now_inc smp) s
              then [PrInfo (press_message BTN_INC) (Some (blink_freq s1))] else [])).
  split; [|split].
  - f_equal. rewrite <- app_assoc.
    replace ((if accepted BTN_INC ci (now_inc smp) s
              then [PrInfo (press_message BTN_INC) (Some (blink_freq s1))] else [])
             ++ log s) with (log s1)
      by (rewrite Hi; destruct (accepted BTN_INC ci (now_inc smp) s); reflexivity).
    replace ((if accepted BTN_DEC cd (now_dec smp) s
              then [PrInfo (press_message BTN_DEC) (Some (blink_freq s2))] else [])
             ++ log s1) with (log s2)
      by (rewrite Hd; destruct (accepted BTN_DEC cd (now_dec smp) s); reflexivity).
    rewrite <- Hbase. unfold blink_led, gpio_clear_pin, gpio_set_pin.
    destruct led; destruct s2; reflexivity.
  - apply Forall_app. split.
    + destruct (accepted BTN_DEC cd (now_dec smp) s); repeat constructor; eauto.
    + destruct (accepted BTN_INC ci (now_inc smp) s); repeat constructor; eauto.
  - rewrite length_app.
    destruct (accepted BTN_DEC cd (now_dec smp) s),
             (accepted BTN_INC ci (now_inc smp) s); reflexivity.
Qed.


(** X12.  A pass in which both buttons read the level already stored, at a
    frequency of at least 1, changes no variable of the module: it toggles
    the LED and sleeps the half-period of the unchanged frequency. *)
Theorem idle_pass_only_blinks :
  forall (smp : sample) (led : bool) (s : state),
    gpio_read_pin GPIO_BTN_INC (lev_inc smp) = last_inc_state s ->
    gpio_read_pin GPIO_BTN_DEC (lev_dec smp) = last_dec_state s ->
    1 <= blink_freq s ->
    loop_body smp (led, s)
    = (negb led,
       emit (Msleep (half_period (blink_freq s)))
         (emit (Iowrite32 (Z.shiftl 1 GPIO_LED)
                  (gpio_base s + (if led then GPCLR0_OFFSET else GPSET0_OFFSET)))
            s)).
Proof.
  intros smp led s Hi Hd Hf. unfold loop_body. rewrite Hi, Hd.
  rewrite (check_same_level BTN_INC (now_inc smp) s : check_increment _ _ s = s).
  rewrite (check_same_level BTN_DEC (now_dec smp) s : check_decrement _ _ s = s).
  unfold blink_led, sleep_half_cycle, gpio_clear_pin, gpio_set_pin.
  destruct led; cbn [blink_freq emit];
    (replace (blink_freq s <? 1) with false by (symmetry; apply Z.ltb_ge; exact Hf));
    reflexivity.
Qed.

End PassEffects.

(** Both buttons at rest, the LED off, from the initial state. *)
Lemma idle_pass_only_blinks_witness :
  gpio_read_pin GPIO_BTN_INC (lev_inc at_rest) = last_inc_state initial_state /\
  gpio_read_pin GPIO_BTN_DEC (lev_dec at_rest) = last_dec_state initial_state /\
  1 <= blink_freq initial_state /\
  loop_body (cfg := rpi_armv7) at_rest (false, initial_state)
  = (true, emit (Msleep 250) (emit (Iowrite32 0x40000 0x1C) initial_state)).
Proof.
  assert (H1 : gpio_read_pin GPIO_BTN_INC (lev_inc at_rest) = last_inc_state initial_state)
    by reflexivity.
  assert (H2 : gpio_read_pin GPIO_BTN_DEC (lev_dec at_rest) = last_dec_state initial_state)
    by reflexivity.
  assert (H3 : 1 <= blink_freq initial_state) by discriminate.
  split; [exact H1|]. split; [exact H2|]. split; [exact H3|].
  rewrite (idle_pass_only_blinks (cfg := rpi_armv7) at_rest false initial_state H1 H2 H3).
  reflexivity.
Defined.

(** ** The frequency across passes *)

Section PassFrequency.
Context `{cfg : KernelConfig}.

(** Adding 5 and taking 5 away again, in 32 bits, with the two clamps. *)
Lemma wrap_add_sub_cancel (f : Z) :
  1 <= f <= CInt.INT_MAX ->
  Z.max (Z.max (CInt.wrap (CInt.wrap (f + 5) - 5)) 1) 1 = f.
Proof.
  intros Hf. unfold CInt.INT_MAX in Hf.
  destruct (Z_le_gt_dec (f + 5) CInt.INT_MAX) as [Hfit | Hover];
    unfold CInt.INT_MAX in *.
  - rewrite (wrap_small (f + 5))
      by (unfold CInt.in_range, CInt.INT_MIN, CInt.INT_MAX; lia).
    replace (f + 5 - 5) with f by lia.
    rewrite wrap_small by (unfold CInt.in_range, CInt.INT_MIN, CInt.INT_MAX; lia).
    lia.
  - rewrite (proj1 (wrap_cases (f + 5)))
      by (unfold CInt.INT_MAX; change (2 ^ 32) with 4294967296; lia).
    rewrite (proj2 (wrap_cases (f + 5 - 2 ^ 32 - 5)))
      by (unfold CInt.INT_MIN; change (2 ^ 32) with 4294967296; lia).
    lia.
Qed.

(** X13.  When short presses of both buttons are released in the same pass,
    the increment is applied first and the decrement undoes it: the pass
    ends at the frequency it started from, also at the top of the [int]
    range, where the addition wraps and the subtraction wraps back. *)
Theorem both_released_in_one_pass_cancel :
  forall (smp : sample) (led : bool) (s : state),
    accepted BTN_INC (gpio_read_pin GPIO_BTN_INC (lev_inc smp)) (now_inc smp) s = true ->
    accepted BTN_DEC (gpio_read_pin GPIO_BTN_DEC (lev_dec smp)) (now_dec smp) s = true ->
    1 <= blink_freq s <= CInt.INT_MAX ->
    blink_freq (snd (loop_body smp (led, s))) = blink_freq s.
Proof.
  intros smp led s Hi Hd Hf.
  rewrite loop_body_freq, Hi, Hd. apply wrap_add_sub_cancel. exact Hf.
Qed.

(** X14.  A short press of the increment button released when the frequency
    is within 5 of [INT_MAX], with no decrement accepted in the same pass,
    makes the addition wrap below zero and the clamp before the sleep set
    the frequency to 1: the pass ends at frequency 1. *)
Theorem increment_overflow_resets_to_floor :
  forall (smp : sample) (led : bool) (s : state),
    accepted BTN_INC (gpio_read_pin GPIO_BTN_INC (lev_inc smp)) (now_inc smp) s = true ->
    accepted BTN_DEC (gpio_read_pin GPIO_BTN_DEC (lev_dec smp)) (now_dec smp) s = false ->
    CInt.INT_MAX - 5 < blink_freq s <= CInt.INT_MAX ->
    CInt.wrap (blink_freq s + 5) = blink_freq s + 5 - 2 ^ 32 /\
    CInt.wrap (blink_freq s + 5) < 0 /\
    blink_freq (snd (loop_body smp (led, s))) = 1.
Proof.
  intros smp led s Hi Hd Hf. rewrite loop_body_freq, Hi, Hd.
  unfold CInt.INT_MAX in Hf.
  rewrite (proj1 (wrap_cases (blink_freq s + 5)))
    by (unfold CInt.INT_MAX; change (2 ^ 32) with 4294967296; lia).
  change (2 ^ 32) with 4294967296. repeat split; lia.
Qed.

Lemma loop_body_residue (smp : sample) (led : bool) (s : state) :
  1 <= blink_freq s <= CInt.INT_MAX ->
  blink_freq s mod 5 = 1 \/ blink_freq s mod 5 = 2 ->
  let f := blink_freq (snd (loop_body smp (led, s))) in
  1 <= f <= CInt.INT_MAX /\ (f mod 5 = 1 \/ f mod 5 = 2).
Proof.
  intros Hf Hmod. cbv zeta.
  destruct (accepted BTN_INC (gpio_read_pin GPIO_BTN_INC (lev_inc smp)) (now_inc smp) s)
    eqn:Hi;
  destruct (accepted BTN_DEC (gpio_read_pin GPIO_BTN_DEC (lev_dec smp)) (now_dec smp) s)
    eqn:Hd.
  - rewrite loop_body_freq, Hi, Hd, (wrap_add_sub_cancel _ Hf). auto.
  - rewrite loop_body_freq, Hi, Hd. unfold CInt.INT_MAX in *.
    destruct (Z_le_gt_dec (blink_freq s + 5) 2147483647) as [Hfit | Hover].
    + rewrite wrap_small by (unfold CInt.in_range, CInt.INT_MIN, CInt.INT_MAX; lia).
      rewrite Z.max_l by lia. split; [lia|].
      replace (blink_freq s + 5) with (blink_freq s + 1 * 5) by lia.
      rewrite Z.mod_add by lia. exact Hmod.
    + rewrite (proj1 (wrap_cases (blink_freq s + 5)))
        by (unfold CInt.INT_MAX; change (2 ^ 32) with 4294967296; lia).
      change (2 ^ 32) with 4294967296. rewrite Z.max_r by lia.
      split; [lia | left; reflexivity].
  - rewrite loop_body_freq, Hi, Hd. unfold CInt.INT_MAX in *.
    rewrite wrap_small by (unfold CInt.in_range, CInt.INT_MIN, CInt.INT_MAX; lia).
    rewrite (Z.max_l _ 1) by lia.
    destruct (Z_le_gt_dec 1 (blink_freq s - 5)) as [Hhigh | Hlow].
    + rewrite Z.max_l by lia. split; [lia|].
      replace (blink_freq s - 5) with (blink_freq s + (-1) * 5) by lia.
      rewrite Z.mod_add by lia. exact Hmod.
    + rewrite Z.max_r by lia. split; [lia | left; reflexivity].
  - rewrite loop_body_freq, Hi, Hd. rewrite Z.max_l by lia. auto.
Qed.

(** X15.  From the initial frequency 2, whatever the buttons do, every pass
    of the loop body ends with a frequency between 1 and [INT_MAX] that
    leaves remainder 1 or 2 modulo 5: the frequency is never a multiple of
    5, nor 3 or 4 more than one. *)
Theorem frequency_residue_invariant :
  forall (smps : list sample) (led : bool),
    let f := blink_freq (snd (iterations smps (led, initial_state))) in
    1 <= f <= CInt.INT_MAX /\ (f mod 5 = 1 \/ f mod 5 = 2).
Proof.
  intros smps led. cbv zeta.
  induction smps as [|smp smps IH] using rev_ind.
  - simpl. unfold CInt.INT_MAX. split; [lia | right; reflexivity].
  - rewrite iterations_snoc.
    destruct (iterations smps (led, initial_state)) as [led' s']. cbn [snd] in IH.
    destruct IH as (Hf & Hmod). apply loop_body_residue; assumption.
Qed.

End PassFrequency.

(** Both buttons down since tick 0 and read HIGH at tick 10, at frequency 2. *)
Lemma both_released_in_one_pass_cancel_witness :
  accepted (cfg := rpi_armv7) BTN_INC (gpio_read_pin GPIO_BTN_INC 0x01800000) 10
    (set_last_dec_state 0 (set_last_inc_state 0 initial_state)) = true /\
  accepted (cfg := rpi_armv7) BTN_DEC (gpio_read_pin GPIO_BTN_DEC 0x01800000) 10
    (set_last_dec_state 0 (set_last_inc_state 0 initial_state)) = true /\
  1 <= blink_freq (set_last_dec_state 0 (set_last_inc_state 0 initial_state))
    <= CInt.INT_MAX /\
  blink_freq (snd (loop_body (cfg := rpi_armv7) (mkSample 0x01800000 10 0x01800000 10)
                     (false, set_last_dec_state 0 (set_last_inc_state 0 initial_state))))
    = 2.
Proof.
  assert (H1 : accepted (cfg := rpi_armv7) BTN_INC
                 (gpio_read_pin GPIO_BTN_INC
                    (lev_inc (mkSample 0x01800000 10 0x01800000 10)))
                 (now_inc (mkSample 0x01800000 10 0x01800000 10))
                 (set_last_dec_state 0 (set_last_inc_state 0 initial_state)) = true)
    by reflexivity.
  assert (H2 : accepted (cfg := rpi_armv7) BTN_DEC
                 (gpio_read_pin GPIO_BTN_DEC
                    (lev_dec (mkSample 0x01800000 10 0x01800000 10)))
                 (now_dec (mkSample 0x01800000 10 0x01800000 10))
                 (set_last_dec_state 0 (set_last_inc_state 0 initial_state)) = true)
    by reflexivity.
  assert (H3 : 1 <= blink_freq (set_last_dec_state 0 (set_last_inc_state 0 initial_state))
               <= CInt.INT_MAX)
    by (split; discriminate).
  split; [exact H1|]. split; [exact H2|]. split; [exact H3|].
  exact (both_released_in_one_pass_cancel (cfg := rpi_armv7)
           (mkSample 0x01800000 10 0x01800000 10) false
           (set_last_dec_state 0 (set_last_inc_state 0 initial_state)) H1 H2 H3).
Defined.

(** The increment button released 10 ticks after its press, at [INT_MAX]. *)
Lemma increment_overflow_resets_to_floor_witness :
  accepted (cfg := rpi_armv7) BTN_INC (gpio_read_pin GPIO_BTN_INC 0x01800000) 10
    (set_blink_freq 2147483647 (set_last_inc_state 0 initial_state)) = true /\
  accepted (cfg := rpi_armv7) BTN_DEC (gpio_read_pin GPIO_BTN_DEC 0x01800000) 10
    (set_blink_freq 2147483647 (set_last_inc_state 0 initial_state)) = false /\
  CInt.INT_MAX - 5
    < blink_freq (set_blink_freq 2147483647 (set_last_inc_state 0 initial_state))
    <= CInt.INT_MAX /\
  blink_freq (snd (loop_body (cfg := rpi_armv7) (mkSample 0x01800000 10 0x01800000 10)
                     (false,
                      set_blink_freq 2147483647 (set_last_inc_state 0 initial_state))))
    = 1.
Proof.
  assert (H1 : accepted (cfg := rpi_armv7) BTN_INC
                 (gpio_read_pin GPIO_BTN_INC
                    (lev_inc (mkSample 0x01800000 10 0x01800000 10)))
                 (now_inc (mkSample 0x01800000 10 0x01800000 10))
                 (set_blink_freq 2147483647 (set_last_inc_state 0 initial_state)) = true)
    by reflexivity.
  assert (H2 : accepted (cfg := rpi_armv7) BTN_DEC
                 (gpio_read_pin GPIO_BTN_DEC
                    (lev_dec (mkSample 0x01800000 10 0x01800000 10)))
                 (now_dec (mkSample 0x01800000 10 0x01800000 10))
                 (set_blink_freq 2147483647 (set_last_inc_state 0 initial_state)) = false)
    by reflexivity.
  assert (H3 : CInt.INT_MAX - 5
               < blink_freq (set_blink_freq 2147483647
                               (set_last_inc_state 0 initial_state))
               <= CInt.INT_MAX)
    by (split; [reflexivity | discriminate]).
  split; [exact H1|]. split; [exact H2|]. split; [exact H3|].
  exact (proj2 (proj2 (increment_overflow_resets_to_floor (cfg := rpi_armv7)
                         (mkSample 0x01800000 10 0x01800000 10) false
                         (set_blink_freq 2147483647 (set_last_inc_state 0 initial_state))
                         H1 H2 H3))).
Defined.

(** ** The order of the presses *)

Section PressOrder.
Context `{cfg : KernelConfig}.

(** X16.  Short presses of the two buttons do not commute near the floor:
    an increment followed by a decrement gives back the frequency [f], but
    a decrement followed by an increment gives [max f 6], which differs
    from [f] for every [f] from 1 to 5. *)
Theorem press_order_matters :
  forall (s : state) (up down : press),
    p_button up = BTN_INC -> p_button down = BTN_DEC ->
    is_short up = true -> is_short down = true ->
    last_inc_state s = 1 -> last_dec_state s = 1 ->
    1 <= blink_freq s <= CInt.INT_MAX - 5 ->
    blink_freq (press_sequence [up; down] s) = blink_freq s /\
    blink_freq (press_sequence [down; up] s) = Z.max (blink_freq s) 6.
Proof.
  intros s up down Hu Hd Hsu Hsd Hi Hdn Hf.
  unfold is_short in *. unfold CInt.INT_MAX in Hf.
  unfold press_sequence. cbn [fold_left]. unfold apply_press. rewrite Hu, Hd.
  split.
  - destruct (press_release_freq BTN_INC (p_down up) [] (p_up up) s Hi) as (_ & Hf1).
    rewrite Hsu in Hf1.
    pose proof (press_release_other BTN_INC BTN_DEC (p_down up) [] (p_up up) s
                  ltac:(discriminate) Hi) as Hd1.
    cbn [last_state] in Hd1. rewrite Hdn in Hd1.
    destruct (press_release_freq BTN_DEC (p_down down) [] (p_up down) _ Hd1) as (_ & Hf2).
    rewrite Hsd, Hf1 in Hf2. rewrite Hf2.
    rewrite (wrap_small (blink_freq s + 5))
      by (unfold CInt.in_range, CInt.INT_MIN, CInt.INT_MAX; lia).
    replace (blink_freq s + 5 - 5) with (blink_freq s) by lia.
    rewrite wrap_small by (unfold CInt.in_range, CInt.INT_MIN, CInt.INT_MAX; lia).
    lia.
  - destruct (press_release_freq BTN_DEC (p_down down) [] (p_up down) s Hdn) as (_ & Hf1).
    rewrite Hsd in Hf1.
    pose proof (press_release_other BTN_DEC BTN_INC (p_down down) [] (p_up down) s
                  ltac:(discriminate) Hdn) as Hi1.
    cbn [last_state] in Hi1. rewrite Hi in Hi1.
    destruct (press_release_freq BTN_INC (p_down up) [] (p_up up) _ Hi1) as (_ & Hf2).
    rewrite Hsu, Hf1 in Hf2. rewrite Hf2.
    rewrite (wrap_small (blink_freq s - 5))
      by (unfold CInt.in_range, CInt.INT_MIN, CInt.INT_MAX; lia).
    rewrite wrap_small by (unfold CInt.in_range, CInt.INT_MIN, CInt.INT_MAX; lia).
    lia.
Qed.

(** X17.  The duration of a press is measured modulo [2 ^ BITS_PER_LONG]
    ticks: when the tick counter stood at [t] at the press and at
    [t + k * 2 ^ BITS_PER_LONG + d] at the release, with [d] below
    [2 ^ BITS_PER_LONG], the release block measures [d].  So a press is
    timed correctly across a wrap of [jiffies] ([k = 0]), and a press held
    for whole turns of the counter plus less than [HZ] ticks counts as
    short. *)
Theorem press_duration_is_modular :
  forall (b : button) (t k d : Z) (s : state),
    0 <= BITS_PER_LONG ->
    0 <= d < 2 ^ BITS_PER_LONG ->
    last_state b s = 1 ->
    held (wrap_ulong t) (wrap_ulong (t + k * 2 ^ BITS_PER_LONG + d)) = d /\
    blink_freq (press_release b (wrap_ulong t) []
                  (wrap_ulong (t + k * 2 ^ BITS_PER_LONG + d)) s)
    = if d <? HZ then
        match b with
        | BTN_INC => CInt.wrap (blink_freq s + 5)
        | BTN_DEC => Z.max (CInt.wrap (blink_freq s - 5)) 1
        end
      else blink_freq s.
Proof.
  intros b t k d s Hbits Hd Hrest.
  assert (Hpos : 0 < 2 ^ BITS_PER_LONG) by (apply Z.pow_pos_nonneg; lia).
  assert (Hheld : held (wrap_ulong t) (wrap_ulong (t + k * 2 ^ BITS_PER_LONG + d)) = d).
  { unfold held, wrap_ulong.
    rewrite <- Zminus_mod.
    replace (t + k * 2 ^ BITS_PER_LONG + d - t) with (d + k * 2 ^ BITS_PER_LONG) by lia.
    rewrite Z.mod_add by lia. apply Z.mod_small. exact Hd. }
  split; [exact Hheld|].
  destruct (press_release_freq b (wrap_ulong t) []
              (wrap_ulong (t + k * 2 ^ BITS_PER_LONG + d)) s Hrest) as (_ & ->).
  rewrite Hheld. reflexivity.
Qed.

End PressOrder.

(** At frequency 2: up then down gives 2, down then up gives 6. *)
Lemma press_order_matters_witness :
  p_button quick_inc = BTN_INC /\ p_button (mkPress BTN_DEC 0 0) = BTN_DEC /\
  is_short (cfg := rpi_armv7) quick_inc = true /\
  is_short (cfg := rpi_armv7) (mkPress BTN_DEC 0 0) = true /\
  last_inc_state initial_state = 1 /\ last_dec_state initial_state = 1 /\
  1 <= blink_freq initial_state <= CInt.INT_MAX - 5 /\
  blink_freq (press_sequence (cfg := rpi_armv7) [quick_inc; mkPress BTN_DEC 0 0]
                initial_state) = 2 /\
  blink_freq (press_sequence (cfg := rpi_armv7) [mkPress BTN_DEC 0 0; quick_inc]
                initial_state) = 6.
Proof.
  assert (H7 : 1 <= blink_freq initial_state <= CInt.INT_MAX - 5)
    by (split; discriminate).
  pose proof (press_order_matters (cfg := rpi_armv7) initial_state quick_inc
                (mkPress BTN_DEC 0 0) eq_refl eq_refl eq_refl eq_refl eq_refl eq_refl H7)
    as (A & B).
  split; [reflexivity|]. split; [reflexivity|]. split; [reflexivity|].
  split; [reflexivity|]. split; [reflexivity|]. split; [reflexivity|].
  split; [exact H7|]. split; [exact A | exact B].
Defined.

(** On the 32-bit kernel: a press seen 16 ticks before the counter wraps and
    released 24 ticks after, and one held a whole turn of the counter
    longer. *)
Lemma press_duration_is_modular_witness :
  0 <= @BITS_PER_LONG rpi_armv7 /\
  0 <= 40 < 2 ^ @BITS_PER_LONG rpi_armv7 /\
  last_state BTN_INC initial_state = 1 /\
  held (cfg := rpi_armv7) 4294967280 24 = 40 /\
  blink_freq (press_release (cfg := rpi_armv7) BTN_INC
                (wrap_ulong (cfg := rpi_armv7) 4294967280) []
                (wrap_ulong (cfg := rpi_armv7) (4294967280 + 1 * 2 ^ 32 + 40))
                initial_state) = 7.
Proof.
  assert (H1 : 0 <= @BITS_PER_LONG rpi_armv7) by discriminate.
  assert (H2 : 0 <= 40 < 2 ^ @BITS_PER_LONG rpi_armv7)
    by (split; [discriminate | reflexivity]).
  assert (H3 : last_state BTN_INC initial_state = 1) by reflexivity.
  split; [exact H1|]. split; [exact H2|]. split; [exact H3|]. split.
  - exact (proj1 (press_duration_is_modular (cfg := rpi_armv7) BTN_INC 4294967280 0 40
                    initial_state H1 H2 H3)).
  - exact (eq_trans
             (proj2 (press_duration_is_modular (cfg := rpi_armv7) BTN_INC 4294967280 1 40
                       initial_state H1 H2 H3))
             eq_refl).
Defined.

(** ** The mapping over the life of the module *)

Lemma covered_block (base off : Z) :
  0 <= off -> off + 4 <= GPIO_LEN -> covered [base] (base + off) = true.
Proof.
  intros H0 H1. unfold covered. cbn [existsb]. rewrite orb_false_r.
  apply andb_true_iff. split; apply Z.leb_le; lia.
Qed.

Section ModuleLife.
Context `{cfg : KernelConfig}.

Lemma messages_are_transparent (msgs : list event) :
  Forall (fun e => exists fmt arg, e = PrInfo fmt arg) msgs ->
  forall l : list event,
    mappings_held (msgs ++ l) = mappings_held l /\
    stray_writes (msgs ++ l) = stray_writes l /\
    worker_started (msgs ++ l) = worker_started l /\
    register_writes (msgs ++ l) = register_writes l.
Proof.
  intros Hmsgs l. induction Hmsgs as [|e msgs (fmt & arg & ->) _ IH].
  - repeat split.
  - cbn. exact IH.
Qed.

Lemma loop_body_resources (smp : sample) (led : bool) (s : state) :
  mappings_held (log s) = [gpio_base s] ->
  let s' := snd (loop_body smp (led, s)) in
  mappings_held (log s') = mappings_held (log s) /\
  stray_writes (log s') = stray_writes (log s).
Proof.
  intros Hheld. cbv zeta.
  destruct (loop_body_log smp led s) as (msgs & -> & Hmsgs & _).
  destruct (messages_are_transparent msgs Hmsgs (log s)) as (Hm & Hs & _).
  cbn [mappings_held stray_writes]. rewrite Hm, Hs, Hheld.
  rewrite covered_block by (destruct led; unfold GPCLR0_OFFSET, GPSET0_OFFSET, GPIO_LEN; lia).
  auto.
Qed.

Lemma exit_cleanup_resources (s : state) :
  gpio_base s <> 0 ->
  mappings_held (log s) = [gpio_base s] ->
  mappings_held (log (exit_cleanup s)) = [] /\
  gpio_base (exit_cleanup s) = 0 /\
  stray_writes (log (exit_cleanup s)) = stray_writes (log s).
Proof.
  destruct s as [base pt rn f li ld ji jd l]. cbn [gpio_base log].
  intros Hbase Hheld. unfold exit_cleanup. run_setters.
  replace (base =? 0) with false by (symmetry; apply Z.eqb_neq; exact Hbase).
  cbv beta iota. cbn [mappings_held stray_writes]. rewrite Hheld.
  rewrite covered_block by (unfold GPCLR0_OFFSET, GPIO_LEN; lia).
  cbn [remove]. destruct (Z.eq_dec base base); [auto | congruence].
Qed.

Lemma step_driver_inv (base : Z) (a : action) (sys : system) :
  base <> 0 -> driver_inv base sys -> driver_inv base (step a sys).
Proof.
  intros Hbase (Hu & Hm & Hs).
  pose proof (step_unload_inv base false a sys Hu) as Hu'.
  split; [exact Hu'|]. clear Hu'.
  destruct sys as [v l t ss u p].
  unfold unload_inv, mapping_inv in *. cbn [vars thread unload] in *.
  destruct Hu as (Hpt & Hrun & Hgb & Hjoin & _). destruct Hm as (Hheld & Hdone).
  destruct a as [smp|]; unfold step.
  - unfold worker_step. cbn [vars thread unload led_on should_stop passes].
    destruct t.
    + destruct (loop_cond ss v); cbn [vars thread unload]; auto.
    + assert (Hnd : u <> ExitDone).
      { intros ->. specialize (Hjoin (or_intror eq_refl)). discriminate. }
      destruct (Hheld Hnd) as (Hmh & Hb). rewrite <- Hb in Hmh.
      destruct (loop_body_resources smp l v Hmh) as (A & B).
      destruct (loop_body_globals smp l v) as (C & _).
      destruct (loop_body smp (l, v)) as [l' v']. cbn [snd vars thread unload] in *.
      rewrite A, B, C. split; [|exact Hs].
      split; [intros _; rewrite Hmh, Hb; auto | intros Hd; contradiction].
    + cbn [vars thread unload]. auto.
  - unfold unload_step. cbn [vars thread unload led_on should_stop passes].
    destruct u.
    + cbn [vars thread unload].
      replace (log (set_running false v)) with (log v) by (destruct v; reflexivity).
      replace (gpio_base (set_running false v)) with (gpio_base v)
        by (destruct v; reflexivity).
      split; [|exact Hs].
      split; [intros _; apply Hheld; discriminate | discriminate].
    + destruct (poll_thread v =? 0); cbn [vars thread unload];
        (split; [|exact Hs]);
        (split; [intros _; apply Hheld; discriminate | discriminate]).
    + destruct t; cbn [vars thread unload]; (split; [|exact Hs]);
        (split; [intros _; apply Hheld; discriminate | discriminate]).
    + destruct (Hheld ltac:(discriminate)) as (Hmh & Hb). rewrite <- Hb in Hmh.
      assert (Hnz : gpio_base v <> 0) by (rewrite Hb; exact Hbase).
      destruct (exit_cleanup_resources v Hnz Hmh) as (A & B & C).
      destruct (exit_cleanup_spec v false) as (_ & D & _).
      cbn [vars thread unload]. rewrite A, B, C, D.
      split; [|exact Hs].
      split; [intros Hd; contradiction|]. intros _.
      repeat split. apply Hrun. discriminate.
    + cbn [vars thread unload]. auto.
Qed.

Lemma run_driver_inv (base : Z) (acts : list action) :
  base <> 0 ->
  forall sys : system, driver_inv base sys -> driver_inv base (run acts sys).
Proof.
  intros Hbase. induction acts as [|a acts IH]; intros sys Hinv; [exact Hinv|].
  unfold run. simpl fold_left. apply IH. apply step_driver_inv; assumption.
Qed.

Lemma init_stray_writes (env : init_env) :
  ioremap_result env <> 0 ->
  IS_ERR (kthread_run_result env) = false ->
  stray_writes (log (snd (two_button_init env initial_state))) = [].
Proof.
  intros Hmap Hok.
  assert (Hnz : (ioremap_result env =? 0) = false) by (apply Z.eqb_neq; exact Hmap).
  unfold two_button_init, configure_buttons, configure_led, initial_state. run_setters.
  rewrite Hnz, Hok. cbv beta iota. cbn [stray_writes mappings_held]. rewrite Hnz.
  rewrite !covered_block
    by (unfold GPPUDCLK0_OFFSET, GPPUD_OFFSET, GPFSEL2_OFFSET, GPFSEL1_OFFSET, GPIO_LEN;
        lia).
  reflexivity.
Qed.

Lemma loaded_driver_inv (env : init_env) :
  ioremap_result env <> 0 ->
  IS_ERR (kthread_run_result env) = false ->
  kthread_run_result env <> 0 ->
  driver_inv (ioremap_result env) (loaded (snd (two_button_init env initial_state))).
Proof.
  intros Hmap Hok Hthread.
  destruct (two_button_init_loaded env initial_state Hmap Hok)
    as (_ & Hb & Hp & Hm).
  cbv zeta in *. split; [|split].
  - rewrite <- Hb. apply loaded_unload_inv. rewrite Hp. exact Hthread.
  - unfold mapping_inv, loaded. cbn [vars unload].
    split; [intros _; rewrite Hm, Hb; auto | discriminate].
  - cbn [vars loaded]. apply init_stray_writes; assumption.
Qed.

(** X18.  Over the whole life of a module that loaded, under any
    interleaving of the worker and [two_button_exit]: the block mapped by
    [two_button_init] is the one mapping held until [two_button_exit] is
    done, and then no mapping is held, [gpio_base] is NULL and [running] is
    false.  The mapping is neither leaked nor released twice. *)
Theorem mapping_is_held_until_unload :
  forall (env : init_env) (acts : list action),
    ioremap_result env <> 0 ->
    IS_ERR (kthread_run_result env) = false ->
    kthread_run_result env <> 0 ->
    let sys := run acts (loaded (snd (two_button_init env initial_state))) in
    (unload sys <> ExitDone ->
     mappings_held (log (vars sys)) = [ioremap_result env] /\
     gpio_base (vars sys) = ioremap_result env) /\
    (unload sys = ExitDone ->
     mappings_held (log (vars sys)) = [] /\
     gpio_base (vars sys) = 0 /\
     running (vars sys) = false).
Proof.
  intros env acts Hmap Hok Hthread sys.
  destruct (run_driver_inv (ioremap_result env) acts Hmap _
              (loaded_driver_inv env Hmap Hok Hthread)) as (_ & Hm & _).
  exact Hm.
Qed.

(** X19.  Under any interleaving of the worker and [two_button_exit], every
    register write the driver issues, at load time, in the loop and at
    unload, lands inside a block that is mapped at the moment of the write:
    there is no write before [ioremap], none after [iounmap], none outside
    the [GPIO_LEN] bytes. *)
Theorem no_write_outside_the_mapping :
  forall (env : init_env) (acts : list action),
    ioremap_result env <> 0 ->
    IS_ERR (kthread_run_result env) = false ->
    kthread_run_result env <> 0 ->
    stray_writes
      (log (vars (run acts (loaded (snd (two_button_init env initial_state)))))) = [].
Proof.
  intros env acts Hmap Hok Hthread.
  destruct (run_driver_inv (ioremap_result env) acts Hmap _
              (loaded_driver_inv env Hmap Hok Hthread)) as (_ & _ & Hs).
  exact Hs.
Qed.

Lemma iterations_running (smps : list sample) (led : bool) (s : state) :
  running (snd (iterations smps (led, s))) = running s.
Proof.
  induction smps as [|smp smps IH] using rev_ind; [reflexivity|].
  rewrite iterations_snoc.
  destruct (iterations smps (led, s)) as [led' s']. cbn [snd] in IH.
  destruct (loop_body_globals smp led' s') as (_ & _ & ->). exact IH.
Qed.

(** X20.  As long as nobody asks it to stop, the worker never leaves the
    loop: after its two steps per sample (the test of the condition, the
    body) it stands at the test again, having completed one pass per
    sample, and its flag and the module's variables are those the passes of
    the body compute from the state at load time. *)
Theorem worker_runs_until_stopped :
  forall (smps : list sample) (s : state),
    running s = true ->
    run (flat_map one_pass smps) (loaded s)
    = mkSystem (snd (iterations smps (false, s))) (fst (iterations smps (false, s)))
               AtLoopTest false ExitNotCalled (List.length smps).
Proof.
  intros smps s Hrun. induction smps as [|smp smps IH] using rev_ind; [reflexivity|].
  rewrite flat_map_app. unfold run in *. rewrite fold_left_app, IH.
  rewrite iterations_snoc, length_app, Nat.add_1_r.
  pose proof (iterations_running smps false s) as Hr. rewrite Hrun in Hr.
  destruct (iterations smps (false, s)) as [led' s']. cbn [fst snd] in *.
  cbn [flat_map one_pass app fold_left step].
  unfold worker_step at 2. cbn [thread should_stop vars led_on unload passes].
  unfold loop_cond. rewrite Hr. cbn [negb andb].
  unfold worker_step. cbn [thread should_stop vars led_on unload passes].
  destruct (loop_body smp (led', s')) as [led'' s'']. reflexivity.
Qed.

End ModuleLife.

Section AfterUnload.
Context `{cfg : KernelConfig}.

(** X21.  Once [two_button_exit] is done nothing happens any more: whatever
    steps are still scheduled, the worker has returned and the system,
    its log included, stays as it is. *)
Theorem nothing_happens_after_unload :
  forall (env : init_env) (acts more : list action),
    ioremap_result env <> 0 ->
    IS_ERR (kthread_run_result env) = false ->
    kthread_run_result env <> 0 ->
    let sys := run acts (loaded (snd (two_button_init env initial_state))) in
    unload sys = ExitDone ->
    thread sys = ThreadReturned /\ run more sys = sys.
Proof.
  intros env acts more Hmap Hok Hthread sys Hdone.
  destruct (run_driver_inv (ioremap_result env) acts Hmap _
              (loaded_driver_inv env Hmap Hok Hthread)) as ((_ & _ & _ & Hjoin & _) & _).
  fold sys in Hjoin. specialize (Hjoin (or_intror Hdone)).
  split; [exact Hjoin|].
  induction more as [|a more IH]; [reflexivity|].
  unfold run in *. cbn [fold_left].
  replace (step a sys) with sys; [exact IH|].
  destruct a; unfold step, worker_step, unload_step; rewrite ?Hjoin, ?Hdone; reflexivity.
Qed.

(** X22.  Repeated short presses have closed forms: [n] of the decrement
    button take the frequency [f] to [max (f - 5 n) 1], so the floor is
    reached after finitely many and kept; [n] of the increment button take
    it to [f + 5 n] as long as that is at most [INT_MAX]. *)
Theorem repeated_presses_closed_form :
  forall (p : press) (n : nat) (s : state),
    is_short p = true ->
    last_state (p_button p) s = 1 ->
    1 <= blink_freq s <= CInt.INT_MAX ->
    (p_button p = BTN_INC -> blink_freq s + 5 * Z.of_nat n <= CInt.INT_MAX) ->
    blink_freq (press_sequence (repeat p n) s)
    = match p_button p with
      | BTN_INC => blink_freq s + 5 * Z.of_nat n
      | BTN_DEC => Z.max (blink_freq s - 5 * Z.of_nat n) 1
      end.
Proof.
  intros p n s Hshort. unfold is_short in Hshort. revert s.
  destruct (p_button p) eqn:Hb; unfold CInt.INT_MAX.
  - induction n as [|n IH]; intros s Hrest Hf Hfit; specialize (Hfit eq_refl).
    + simpl. lia.
    + unfold press_sequence. cbn [repeat fold_left].
      fold (press_sequence (repeat p n) (apply_press s p)).
      unfold apply_press at 1. rewrite Hb.
      destruct (press_release_freq BTN_INC (p_down p) [] (p_up p) s Hrest)
        as (Hrest' & Hfreq).
      rewrite Hshort in Hfreq.
      rewrite wrap_small in Hfreq
        by (unfold CInt.in_range, CInt.INT_MIN, CInt.INT_MAX; lia).
      rewrite IH;
        [rewrite Hfreq; lia | exact Hrest' | rewrite Hfreq; lia
        | intros _; rewrite Hfreq; lia].
  - induction n as [|n IH]; intros s Hrest Hf _.
    + simpl. lia.
    + unfold press_sequence. cbn [repeat fold_left].
      fold (press_sequence (repeat p n) (apply_press s p)).
      unfold apply_press at 1. rewrite Hb.
      destruct (press_release_freq BTN_DEC (p_down p) [] (p_up p) s Hrest)
        as (Hrest' & Hfreq).
      rewrite Hshort in Hfreq.
      rewrite wrap_small in Hfreq
        by (unfold CInt.in_range, CInt.INT_MIN, CInt.INT_MAX; lia).
      rewrite IH;
        [rewrite Hfreq; lia | exact Hrest' | rewrite Hfreq; lia
        | intros H; discriminate H].
Qed.

End AfterUnload.

(** The module loaded by [env_ok], stopped after one pass and unloaded. *)
Lemma mapping_is_held_until_unload_witness :
  ioremap_result env_ok <> 0 /\
  IS_ERR (cfg := rpi_armv7) (kthread_run_result env_ok) = false /\
  kthread_run_result env_ok <> 0 /\
  unload (run (cfg := rpi_armv7) (stop_after_one_pass ++ [Unload; Unload; Unload])
            (loaded (snd (two_button_init (cfg := rpi_armv7) env_ok initial_state))))
    = ExitDone /\
  mappings_held
    (log (vars (run (cfg := rpi_armv7) (stop_after_one_pass ++ [Unload; Unload; Unload])
                  (loaded (snd (two_button_init (cfg := rpi_armv7) env_ok
                                  initial_state)))))) = [].
Proof.
  assert (H1 : ioremap_result env_ok <> 0) by discriminate.
  assert (H2 : IS_ERR (cfg := rpi_armv7) (kthread_run_result env_ok) = false)
    by reflexivity.
  assert (H3 : kthread_run_result env_ok <> 0) by discriminate.
  assert (H4 : unload (run (cfg := rpi_armv7)
                         (stop_after_one_pass ++ [Unload; Unload; Unload])
                         (loaded (snd (two_button_init (cfg := rpi_armv7) env_ok
                                         initial_state)))) = ExitDone)
    by (vm_compute; reflexivity).
  split; [exact H1|]. split; [exact H2|]. split; [exact H3|]. split; [exact H4|].
  exact (proj1 (proj2 (mapping_is_held_until_unload (cfg := rpi_armv7) env_ok
                         (stop_after_one_pass ++ [Unload; Unload; Unload]) H1 H2 H3)
                  H4)).
Defined.

Lemma no_write_outside_the_mapping_witness :
  ioremap_result env_ok <> 0 /\
  IS_ERR (cfg := rpi_armv7) (kthread_run_result env_ok) = false /\
  kthread_run_result env_ok <> 0 /\
  stray_writes
    (log (vars (run (cfg := rpi_armv7) (stop_after_one_pass ++ [Unload; Unload; Unload])
                  (loaded (snd (two_button_init (cfg := rpi_armv7) env_ok
                                  initial_state)))))) = [].
Proof.
  assert (H1 : ioremap_result env_ok <> 0) by discriminate.
  assert (H2 : IS_ERR (cfg := rpi_armv7) (kthread_run_result env_ok) = false)
    by reflexivity.
  assert (H3 : kthread_run_result env_ok <> 0) by discriminate.
  split; [exact H1|]. split; [exact H2|]. split; [exact H3|].
  exact (no_write_outside_the_mapping (cfg := rpi_armv7) env_ok
           (stop_after_one_pass ++ [Unload; Unload; Unload]) H1 H2 H3).
Defined.

(** Two idle samples after loading: two passes, the LED off again. *)
Lemma worker_runs_until_stopped_witness :
  running (vars loaded_ok) = true /\
  passes (run (cfg := rpi_armv7) (flat_map one_pass [at_rest; at_rest])
            (loaded (vars loaded_ok))) = 2%nat /\
  thread (run (cfg := rpi_armv7) (flat_map one_pass [at_rest; at_rest])
            (loaded (vars loaded_ok))) = AtLoopTest.
Proof.
  assert (H : running (vars loaded_ok) = true) by reflexivity.
  split; [exact H|].
  rewrite (worker_runs_until_stopped (cfg := rpi_armv7) [at_rest; at_rest]
             (vars loaded_ok) H).
  split; reflexivity.
Defined.

Lemma nothing_happens_after_unload_witness :
  ioremap_result env_ok <> 0 /\
  IS_ERR (cfg := rpi_armv7) (kthread_run_result env_ok) = false /\
  kthread_run_result env_ok <> 0 /\
  unload (run (cfg := rpi_armv7) (stop_after_one_pass ++ [Unload; Unload; Unload])
            (loaded (snd (two_button_init (cfg := rpi_armv7) env_ok initial_state))))
    = ExitDone /\
  thread (run (cfg := rpi_armv7) (stop_after_one_pass ++ [Unload; Unload; Unload])
            (loaded (snd (two_button_init (cfg := rpi_armv7) env_ok initial_state))))
    = ThreadReturned.
Proof.
  assert (H1 : ioremap_result env_ok <> 0) by discriminate.
  assert (H2 : IS_ERR (cfg := rpi_armv7) (kthread_run_result env_ok) = false)
    by reflexivity.
  assert (H3 : kthread_run_result env_ok <> 0) by discriminate.
  assert (H4 : unload (run (cfg := rpi_armv7)
                         (stop_after_one_pass ++ [Unload; Unload; Unload])
                         (loaded (snd (two_button_init (cfg := rpi_armv7) env_ok
                                         initial_state)))) = ExitDone)
    by (vm_compute; reflexivity).
  split; [exact H1|]. split; [exact H2|]. split; [exact H3|]. split; [exact H4|].
  exact (proj1 (nothing_happens_after_unload (cfg := rpi_armv7) env_ok
                  (stop_after_one_pass ++ [Unload; Unload; Unload]) [Worker at_rest]
                  H1 H2 H3 H4)).
Defined.

(** Three short presses of the decrement button from frequency 12. *)
Lemma repeated_presses_closed_form_witness :
  is_short (cfg := rpi_armv7) (mkPress BTN_DEC 0 0) = true /\
  last_state (p_button (mkPress BTN_DEC 0 0)) (set_blink_freq 12 initial_state) = 1 /\
  1 <= blink_freq (set_blink_freq 12 initial_state) <= CInt.INT_MAX /\
  blink_freq (press_sequence (cfg := rpi_armv7) (repeat (mkPress BTN_DEC 0 0) 3)
                (set_blink_freq 12 initial_state)) = 1.
Proof.
  assert (H1 : is_short (cfg := rpi_armv7) (mkPress BTN_DEC 0 0) = true) by reflexivity.
  assert (H2 : last_state (p_button (mkPress BTN_DEC 0 0))
                 (set_blink_freq 12 initial_state) = 1) by reflexivity.
  assert (H3 : 1 <= blink_freq (set_blink_freq 12 initial_state) <= CInt.INT_MAX)
    by (split; discriminate).
  split; [exact H1|]. split; [exact H2|]. split; [exact H3|].
  exact (repeated_presses_closed_form (cfg := rpi_armv7) (mkPress BTN_DEC 0 0) 3
           (set_blink_freq 12 initial_state) H1 H2 H3
           ltac:(intros H; discriminate H)).
Defined.
